(** * Dodecahedron logger

    A shallow embedding of the firmware in [src_mcu/src/main.cpp]
    (Adafruit Feather M4 with a BME280 on I2C, a DS18B20 on a one-wire bus
    and the on-board NeoPixel), and the properties of its serial protocol,
    start-up sequence and status indicator.

    The firmware is straight-line code over four vendor objects ([neo],
    [Serial], [ds18], [bme]) and the serial command listener [sc].  Each call
    into one of them is an [Event]; a program is a function from the state of
    the firmware to an [Outcome] that carries the final state and the events
    of the call, in the order in which they happened.  The answers of the
    hardware (which attempt of [bme.begin] succeeds, what a sensor reads,
    what [millis] returns, which command has arrived) are given by an
    [Environment], indexed by the number of the call. *)

From Stdlib Require Import ZArith List String Ascii Lia Bool Arith.
From Stdlib Require Import SpecFloat DecimalString DecimalN Sorted.
Import ListNotations.
Local Open Scope string_scope.
Local Open Scope Z_scope.

(** ** Machine integers and C strings *)

Definition uint8_t (z : Z) : Z := z mod 2 ^ 8.
Definition uint32_t (z : Z) : Z := z mod 2 ^ 32.

Arguments uint32_t : simpl never.

Definition byte_of (c : ascii) : Z := Z.of_N (N_of_ascii c).

Definition NUL : ascii := "000"%char.
Definition TAB : ascii := "009"%char.

(** The characters of a [char*] buffer that make up the C string it holds:
    those before the first NUL. *)
Fixpoint c_str (buf : string) : string :=
  match buf with
  | EmptyString => EmptyString
  | String c rest => if Ascii.eqb c NUL then EmptyString else String c (c_str rest)
  end.

(** [strcmp] of the C library: the difference of the first two bytes that
    differ, the end of a buffer reading as NUL, and 0 when both strings end
    together. *)
Fixpoint strcmp (s1 s2 : string) : Z :=
  match s1, s2 with
  | EmptyString, EmptyString => 0
  | EmptyString, String c2 _ => 0 - byte_of c2
  | String c1 _, EmptyString => byte_of c1 - 0
  | String c1 r1, String c2 r2 =>
      if Ascii.eqb c1 c2
      then (if Ascii.eqb c1 NUL then 0 else strcmp r1 r2)
      else byte_of c1 - byte_of c2
  end.

(** ** Floats and the [String] class of the Arduino core *)

(** A [float] is an IEEE 754 value: a signed zero, a signed infinity, a NaN
    or [(-1)^s * m * 2^e]. *)
Definition float : Type := spec_float.
Definition NAN : float := S754_nan.

(** [String(unsigned long)]: the decimal digits, no padding. *)
Definition String_ulong (n : Z) : string :=
  NilEmpty.string_of_uint (N.to_uint (Z.to_N n)).

Arguments String_ulong : simpl never.

(** Reads a decimal field back; [None] if it is not a string of digits. *)
Definition parse_ulong (s : string) : option Z :=
  match s with
  | EmptyString => None
  | _ => option_map (fun d => Z.of_N (N.of_uint d)) (NilEmpty.uint_of_string s)
  end.

(** [String + char] and [String + String]. *)
Definition plus_char (s : string) (c : ascii) : string := s ++ String c EmptyString.
Definition plus_str (s t : string) : string := s ++ t.

Notation "s +c c" := (plus_char s c) (at level 50, left associativity).
Notation "s +s t" := (plus_str s t) (at level 50, left associativity).

(** The fields of a line: the pieces between the tabs. *)
Fixpoint fields_from (cur : string) (s : string) : list string :=
  match s with
  | EmptyString => [cur]
  | String c rest =>
      if Ascii.eqb c TAB then cur :: fields_from EmptyString rest
      else fields_from (cur +c c) rest
  end.

Definition fields (line : string) : list string := fields_from EmptyString line.

Fixpoint has_tab (s : string) : bool :=
  match s with
  | EmptyString => false
  | String c rest => Ascii.eqb c TAB || has_tab rest
  end.

(** ** The NeoPixel *)

Definition NEO_DIM : Z := 3.
Definition NEO_BRIGHT : Z := 8.

(** [Adafruit_NeoPixel::Color(r, g, b)]: the three bytes packed as 0xRRGGBB. *)
Definition neo_Color (r g b : Z) : Z :=
  Z.lor (Z.lor (Z.shiftl (uint8_t r) 16) (Z.shiftl (uint8_t g) 8)) (uint8_t b).

Definition red_of (c : Z) : Z := uint8_t (Z.shiftr c 16).
Definition green_of (c : Z) : Z := uint8_t (Z.shiftr c 8).
Definition blue_of (c : Z) : Z := uint8_t c.

(** The three states the RGB LED stands for (header comment of main.cpp:
    blue while setting up, green when running, a bright green flash on every
    read-out), each with the colour the code gives it. *)
Inductive IndicatorState : Type := Initializing | Idle | Sampling.

Definition colour_of (s : IndicatorState) : Z :=
  match s with
  | Initializing => neo_Color 0 0 NEO_BRIGHT
  | Idle => neo_Color 0 NEO_DIM 0
  | Sampling => neo_Color 0 NEO_BRIGHT 0
  end.

(** ** Events, state and environment *)

Inductive Event : Type :=
| EvNeoBegin
| EvNeoSetPixelColor (n c : Z)
| EvNeoShow (shown : Z)                       (* the colour the LED latches *)
| EvSerialBegin (baud : Z)
| EvSerialPrintln (line : string)
| EvDs18Begin
| EvBmeBegin (addr : Z) (ok : bool)
| EvDelay (ms : Z)
| EvBmeReadTemperature (v : float)
| EvBmeReadHumidity (v : float)
| EvBmeReadPressure (v : float)
| EvScAvailable (b : bool)
| EvScGetCmd (cmd : string)
| EvMillis (t : Z)
| EvDs18RequestTemperatures
| EvDs18GetTempCByIndex (i : Z) (v : float).

(** What the hardware answers to the k-th call (counted from 0) of each
    operation that has a result. *)
Record Environment : Type := mkEnvironment {
  bme_begin_ok : nat -> bool;
  bme_temperature : nat -> float;
  bme_humidity : nat -> float;
  bme_pressure : nat -> float;
  ds18_tempC : nat -> float;
  uptime_ms : nat -> Z;                 (* milliseconds since boot *)
  serial_cmd : nat -> option string     (* a complete command, if one has arrived *)
}.

(** The globals of main.cpp, the pixel buffer of [neo], the command held by
    [sc], and how often each operation of the environment has been called. *)
Record World : Type := mkWorld {
  ds18_temp : float;
  bme280_temp : float;
  bme280_humi : float;
  bme280_pres : float;
  neo_pixel : Z;
  sc_strIn : option string;
  n_begin : nat;
  n_temperature : nat;
  n_humidity : nat;
  n_pressure : nat;
  n_ds18 : nat;
  n_millis : nat;
  n_available : nat
}.

(** The state at power-up: lines 46-49 initialise the four readings to NAN. *)
Definition boot : World :=
  mkWorld NAN NAN NAN NAN 0 None 0 0 0 0 0 0 0.

Definition set_ds18_temp (v : float) (w : World) : World :=
  mkWorld v (bme280_temp w) (bme280_humi w) (bme280_pres w) (neo_pixel w)
    (sc_strIn w) (n_begin w) (n_temperature w) (n_humidity w) (n_pressure w)
    (n_ds18 w) (n_millis w) (n_available w).
Definition set_bme280_temp (v : float) (w : World) : World :=
  mkWorld (ds18_temp w) v (bme280_humi w) (bme280_pres w) (neo_pixel w)
    (sc_strIn w) (n_begin w) (n_temperature w) (n_humidity w) (n_pressure w)
    (n_ds18 w) (n_millis w) (n_available w).
Definition set_bme280_humi (v : float) (w : World) : World :=
  mkWorld (ds18_temp w) (bme280_temp w) v (bme280_pres w) (neo_pixel w)
    (sc_strIn w) (n_begin w) (n_temperature w) (n_humidity w) (n_pressure w)
    (n_ds18 w) (n_millis w) (n_available w).
Definition set_bme280_pres (v : float) (w : World) : World :=
  mkWorld (ds18_temp w) (bme280_temp w) (bme280_humi w) v (neo_pixel w)
    (sc_strIn w) (n_begin w) (n_temperature w) (n_humidity w) (n_pressure w)
    (n_ds18 w) (n_millis w) (n_available w).
Definition set_neo_pixel (c : Z) (w : World) : World :=
  mkWorld (ds18_temp w) (bme280_temp w) (bme280_humi w) (bme280_pres w) c
    (sc_strIn w) (n_begin w) (n_temperature w) (n_humidity w) (n_pressure w)
    (n_ds18 w) (n_millis w) (n_available w).
Definition set_sc_strIn (o : option string) (w : World) : World :=
  mkWorld (ds18_temp w) (bme280_temp w) (bme280_humi w) (bme280_pres w)
    (neo_pixel w) o (n_begin w) (n_temperature w) (n_humidity w)
    (n_pressure w) (n_ds18 w) (n_millis w) (n_available w).
Definition tick_begin (w : World) : World :=
  mkWorld (ds18_temp w) (bme280_temp w) (bme280_humi w) (bme280_pres w)
    (neo_pixel w) (sc_strIn w) (S (n_begin w)) (n_temperature w)
    (n_humidity w) (n_pressure w) (n_ds18 w) (n_millis w) (n_available w).
Definition tick_temperature (w : World) : World :=
  mkWorld (ds18_temp w) (bme280_temp w) (bme280_humi w) (bme280_pres w)
    (neo_pixel w) (sc_strIn w) (n_begin w) (S (n_temperature w))
    (n_humidity w) (n_pressure w) (n_ds18 w) (n_millis w) (n_available w).
Definition tick_humidity (w : World) : World :=
  mkWorld (ds18_temp w) (bme280_temp w) (bme280_humi w) (bme280_pres w)
    (neo_pixel w) (sc_strIn w) (n_begin w) (n_temperature w)
    (S (n_humidity w)) (n_pressure w) (n_ds18 w) (n_millis w) (n_available w).
Definition tick_pressure (w : World) : World :=
  mkWorld (ds18_temp w) (bme280_temp w) (bme280_humi w) (bme280_pres w)
    (neo_pixel w) (sc_strIn w) (n_begin w) (n_temperature w) (n_humidity w)
    (S (n_pressure w)) (n_ds18 w) (n_millis w) (n_available w).
Definition tick_ds18 (w : World) : World :=
  mkWorld (ds18_temp w) (bme280_temp w) (bme280_humi w) (bme280_pres w)
    (neo_pixel w) (sc_strIn w) (n_begin w) (n_temperature w) (n_humidity w)
    (n_pressure w) (S (n_ds18 w)) (n_millis w) (n_available w).
Definition tick_millis (w : World) : World :=
  mkWorld (ds18_temp w) (bme280_temp w) (bme280_humi w) (bme280_pres w)
    (neo_pixel w) (sc_strIn w) (n_begin w) (n_temperature w) (n_humidity w)
    (n_pressure w) (n_ds18 w) (S (n_millis w)) (n_available w).
Definition tick_available (w : World) : World :=
  mkWorld (ds18_temp w) (bme280_temp w) (bme280_humi w) (bme280_pres w)
    (neo_pixel w) (sc_strIn w) (n_begin w) (n_temperature w) (n_humidity w)
    (n_pressure w) (n_ds18 w) (n_millis w) (S (n_available w)).

(** ** Programs *)

(** A call either returns, with its result, the state it leaves and the
    events it caused, or is still inside a [while] when the budget of
    iterations is used up, having caused the events listed. *)
Inductive Outcome (A : Type) : Type :=
| Returned (a : A) (w : World) (tr : list Event)
| Spinning (tr : list Event).

Arguments Returned {A} a w tr.
Arguments Spinning {A} tr.

Definition M (A : Type) : Type := World -> Outcome A.

Definition ret {A : Type} (a : A) : M A := fun w => Returned a w [].

(** The events [t1] that came before those of an outcome. *)
Definition prepend {A : Type} (t1 : list Event) (o : Outcome A) : Outcome A :=
  match o with
  | Spinning t2 => Spinning (t1 ++ t2)
  | Returned a w t2 => Returned a w (t1 ++ t2)
  end.

Definition bind {A B : Type} (m : M A) (k : A -> M B) : M B := fun w =>
  match m w with
  | Spinning t1 => Spinning t1
  | Returned a w1 t1 => prepend t1 (k a w1)
  end.

Notation "x <- m ;; k" := (bind m (fun x => k))
  (at level 61, m at next level, right associativity).
Notation "m ;; k" := (bind m (fun _ => k))
  (at level 61, right associativity).

(** [while (cond) body], cut off after [fuel] evaluations of [cond]. *)
Fixpoint while (fuel : nat) (cond : M bool) (body : M unit) : M unit :=
  match fuel with
  | O => fun _ => Spinning []
  | S fuel' =>
      c <- cond ;;
      if c then body ;; while fuel' cond body else ret tt
  end.

Definition load {A : Type} (var : World -> A) : M A :=
  fun w => Returned (var w) w [].
Definition store {A : Type} (set : A -> World -> World) (v : A) : M unit :=
  fun w => Returned tt (set v w) [].
Definition emit (e : Event) : M unit := fun w => Returned tt w [e].

(** ** The vendor objects *)

Section Firmware.

(** [String(float, decimalPlaces)] of the Arduino core, and the hardware
    the firmware runs against. *)
Variable String_float : float -> Z -> string.
Variable env : Environment.

(** [neo]: one pixel; [setPixelColor] fills the RAM buffer, [show] sends
    the buffer to the LED. *)
Definition neo_begin : M unit := emit EvNeoBegin.

Definition neo_setPixelColor (n c : Z) : M unit := fun w =>
  Returned tt
    (if (0 <=? n) && (n <? 1) then set_neo_pixel (Z.land c 16777215) w else w)
    [EvNeoSetPixelColor n c].

Definition neo_show : M unit := fun w =>
  Returned tt w [EvNeoShow (neo_pixel w)].

Definition Serial_begin (baud : Z) : M unit := emit (EvSerialBegin baud).
Definition Serial_println (line : string) : M unit := emit (EvSerialPrintln line).

Definition delay (ms : Z) : M unit := emit (EvDelay ms).

Definition millis : M Z := fun w =>
  let t := uint32_t (uptime_ms env (n_millis w)) in
  Returned t (tick_millis w) [EvMillis t].

Definition ds18_begin : M unit := emit EvDs18Begin.
Definition ds18_requestTemperatures : M unit := emit EvDs18RequestTemperatures.

Definition ds18_getTempCByIndex (i : Z) : M float := fun w =>
  let v := ds18_tempC env (n_ds18 w) in
  Returned v (tick_ds18 w) [EvDs18GetTempCByIndex i v].

Definition bme_begin (addr : Z) : M bool := fun w =>
  let ok := bme_begin_ok env (n_begin w) in
  Returned ok (tick_begin w) [EvBmeBegin addr ok].

Definition bme_readTemperature : M float := fun w =>
  let v := bme_temperature env (n_temperature w) in
  Returned v (tick_temperature w) [EvBmeReadTemperature v].

Definition bme_readHumidity : M float := fun w =>
  let v := bme_humidity env (n_humidity w) in
  Returned v (tick_humidity w) [EvBmeReadHumidity v].

Definition bme_readPressure : M float := fun w =>
  let v := bme_pressure env (n_pressure w) in
  Returned v (tick_pressure w) [EvBmeReadPressure v].

(** [sc]: [available] polls the port and says whether a complete command
    is held; [getCmd] hands it out (the empty string if there is none). *)
Definition received (w : World) : option string :=
  match serial_cmd env (n_available w) with
  | Some cmd => Some cmd
  | None => sc_strIn w
  end.

Definition sc_available : M bool := fun w =>
  let held := received w in
  let b := match held with Some _ => true | None => false end in
  Returned b (set_sc_strIn held (tick_available w)) [EvScAvailable b].

Definition sc_getCmd : M string := fun w =>
  let cmd := match sc_strIn w with Some cmd => cmd | None => EmptyString end in
  Returned cmd (set_sc_strIn None w) [EvScGetCmd cmd].

(** ** main.cpp *)

Definition diagnostic : string :=
  "Could not find a valid BME280 sensor, check wiring!".
Definition identity : string := "Arduino, Dodecahedron logger".

(** Lines 55-76; [fuel] bounds the evaluations of the [while] condition. *)
Definition setup (fuel : nat) : M unit :=
  neo_begin ;;
  neo_setPixelColor 0 (neo_Color 0 0 NEO_BRIGHT) ;;
  neo_show ;;

  Serial_begin 9600 ;;
  ds18_begin ;;

  while fuel (ok <- bme_begin 118 ;; ret (negb ok))
    (Serial_println diagnostic ;;
     delay 1000) ;;

  _ <- bme_readTemperature ;;
  _ <- bme_readHumidity ;;
  _ <- bme_readPressure ;;

  neo_setPixelColor 0 (neo_Color 0 NEO_DIM 0) ;;
  neo_show.

(** Lines 103-105: the argument of [Serial.println]. *)
Definition response (now : Z) (t_probe t_env h_env p_env : float) : string :=
  String_ulong now +c TAB +s String_float t_probe 1 +c TAB +s
  String_float t_env 1 +c TAB +s String_float h_env 1 +c
  TAB +s String_float p_env 0.

(** Lines 82-111. *)
Definition loop : M unit :=
  avail <- sc_available ;;
  if (avail : bool) then
    strCmd <- sc_getCmd ;;

    neo_setPixelColor 0 (neo_Color 0 NEO_BRIGHT 0) ;;
    neo_show ;;

    (if strcmp strCmd "id?" =? 0 then
       Serial_println identity
     else
       now <- millis ;;
       ds18_requestTemperatures ;;
       (v <- ds18_getTempCByIndex 0 ;; store set_ds18_temp v) ;;
       (v <- bme_readTemperature ;; store set_bme280_temp v) ;;
       (v <- bme_readHumidity ;; store set_bme280_humi v) ;;
       (v <- bme_readPressure ;; store set_bme280_pres v) ;;

       t_probe <- load ds18_temp ;;
       t_env <- load bme280_temp ;;
       h_env <- load bme280_humi ;;
       p_env <- load bme280_pres ;;
       Serial_println (response now t_probe t_env h_env p_env)) ;;

    neo_setPixelColor 0 (neo_Color 0 NEO_DIM 0) ;;
    neo_show
  else
    ret tt.

(** The Arduino core calls [setup] once and then [loop] for ever; [loops n]
    is the first [n] calls of [loop]. *)
Fixpoint loops (n : nat) : M unit :=
  match n with
  | O => ret tt
  | S n' => loop ;; loops n'
  end.

Definition firmware (fuel n : nat) : M unit := setup fuel ;; loops n.

End Firmware.

(** ** A reference formatter

    The theorems below hold for every [String_float].  To run the firmware
    on concrete readings this section gives one in the manner of the core's
    [dtostrf(value, decimalPlaces + 2, decimalPlaces, buf)], which prints
    with the format [%w.pf]: the value rounded to [p] decimals (ties to
    even), "nan" and "inf" for the special values, blanks on the left up to
    the width [w]. *)

Fixpoint blanks (n : nat) (c : ascii) : string :=
  match n with
  | O => EmptyString
  | S n' => String c (blanks n' c)
  end.

Definition pad_left (width : nat) (c : ascii) (s : string) : string :=
  blanks (width - String.length s) c ++ s.

(** [m * 2^e * 10^p] rounded to the nearest integer, ties to even. *)
Definition scaled_round (m e p : Z) : Z :=
  if 0 <=? e then m * 2 ^ e * 10 ^ p
  else
    let num := m * 10 ^ p in
    let den := 2 ^ (- e) in
    let q := num / den in
    let r := num mod den in
    if (den <? 2 * r) || ((den =? 2 * r) && Z.odd q) then q + 1 else q.

Definition digits_fixed (q p : Z) : string :=
  let ip := String_ulong (q / 10 ^ p) in
  if p =? 0 then ip
  else ip ++ "." ++ pad_left (Z.to_nat p) "0"%char (String_ulong (q mod 10 ^ p)).

Definition signed (s : bool) (body : string) : string :=
  if s then "-" ++ body else body.

Definition dtostrf (v : float) (width prec : Z) : string :=
  pad_left (Z.to_nat width) " "%char
    match v with
    | S754_nan => "nan"
    | S754_infinity s => signed s "inf"
    | S754_zero s => signed s (digits_fixed 0 prec)
    | S754_finite s m e => signed s (digits_fixed (scaled_round (Z.pos m) e prec) prec)
    end.

Definition String_float_ref (v : float) (decimalPlaces : Z) : string :=
  dtostrf v (decimalPlaces + 2) decimalPlaces.


(** ** What an observer sees of a trace *)

Definition events_of {A : Type} (o : Outcome A) : list Event :=
  match o with
  | Returned _ _ tr => tr
  | Spinning tr => tr
  end.

(** The four operations that read a sensor value. *)
Definition is_sensor_read (e : Event) : bool :=
  match e with
  | EvDs18GetTempCByIndex _ _ | EvBmeReadTemperature _
  | EvBmeReadHumidity _ | EvBmeReadPressure _ => true
  | _ => false
  end.

(** Any call into [ds18] or [bme] after their [begin]. *)
Definition is_sensor_access (e : Event) : bool :=
  match e with
  | EvDs18RequestTemperatures => true
  | _ => is_sensor_read e
  end.

Definition sensor_reads (tr : list Event) : list Event := filter is_sensor_read tr.
Definition sensor_accesses (tr : list Event) : list Event := filter is_sensor_access tr.

(** The lines written to the serial channel, and the delays taken. *)
Fixpoint printed (tr : list Event) : list string :=
  match tr with
  | [] => []
  | EvSerialPrintln line :: tr' => line :: printed tr'
  | _ :: tr' => printed tr'
  end.

Fixpoint delays (tr : list Event) : list Z :=
  match tr with
  | [] => []
  | EvDelay ms :: tr' => ms :: delays tr'
  | _ :: tr' => delays tr'
  end.

(** The timestamp of a response line: its first field, read as a number. *)
Definition timestamp_of (line : string) : option Z :=
  parse_ulong (hd EmptyString (fields line)).

Fixpoint timestamps (lines : list string) : list Z :=
  match lines with
  | [] => []
  | line :: rest =>
      match timestamp_of line with
      | Some t => t :: timestamps rest
      | None => timestamps rest
      end
  end.

(** Where the firmware stands, as far as the trace tells. *)
Inductive Phase : Type :=
| PowerUp      (* in [setup], before its first flush *)
| Starting     (* in [setup], from its first flush to its last *)
| Waiting      (* between requests *)
| Received     (* a command has been taken, the LED not yet flushed *)
| Handling     (* from that flush to the emission of the response *)
| Responded.   (* the response is out, the LED not yet flushed again *)

Definition phase_step (ph : Phase) (e : Event) : Phase :=
  match ph, e with
  | PowerUp, EvNeoShow _ => Starting
  | Starting, EvNeoShow _ => Waiting
  | Waiting, EvScGetCmd _ => Received
  | Received, EvNeoShow _ => Handling
  | Handling, EvSerialPrintln _ => Responded
  | Responded, EvNeoShow _ => Waiting
  | _, _ => ph
  end.

(** The colour the LED shows: that of the last flush. *)
Definition shown_step (c : Z) (e : Event) : Z :=
  match e with
  | EvNeoShow c' => c'
  | _ => c
  end.

Definition Point : Type := (Phase * Z)%type.

Definition point_step (pt : Point) (e : Event) : Point :=
  (phase_step (fst pt) e, shown_step (snd pt) e).

(** Every point of a trace: the start and the point after each event. *)
Fixpoint points (pt : Point) (tr : list Event) : list Point :=
  pt ::
  match tr with
  | [] => []
  | e :: tr' => points (point_step pt e) tr'
  end.

Definition end_point (pt : Point) (tr : list Event) : Point :=
  fold_left point_step tr pt.

(** The colour the LED shows after a trace, and every event of a trace
    with the colour shown before and after it. *)
Definition shown_after (c : Z) (tr : list Event) : Z := fold_left shown_step tr c.

Fixpoint observations (c : Z) (tr : list Event) : list (Z * Event * Z) :=
  match tr with
  | [] => []
  | e :: tr' => (c, e, shown_step c e) :: observations (shown_step c e) tr'
  end.

(** What is seen when [loop] polls for a command and when it prints. *)
Definition seen_in_loop (ob : Z * Event * Z) : Prop :=
  match ob with
  | (before, EvScAvailable _, after) =>
      before = colour_of Idle /\ after = colour_of Idle
  | (before, EvSerialPrintln _, after) =>
      before = colour_of Sampling /\ after = colour_of Sampling
  | _ => True
  end.

(** The colour the LED is found to show in each phase; [c0] is what it
    showed at power-up. *)
Definition colour_in (c0 : Z) (ph : Phase) : Z :=
  match ph with
  | PowerUp => c0
  | Starting => colour_of Initializing
  | Waiting | Received => colour_of Idle
  | Handling | Responded => colour_of Sampling
  end.

(** One round of the [while] of [setup] that finds no sensor. *)
Definition retry : list Event :=
  [EvBmeBegin 118 false; EvSerialPrintln diagnostic; EvDelay 1000].

Fixpoint retries (n : nat) : list Event :=
  match n with
  | O => []
  | S n' => retry ++ retries n'
  end.

(** The driver fails [N] times from the state [w] on, then succeeds. *)
Definition found_after (env : Environment) (w : World) (N : nat) : Prop :=
  (forall k, (k < N)%nat -> bme_begin_ok env (n_begin w + k) = false) /\
  bme_begin_ok env (n_begin w + N) = true.

(** The four globals of main.cpp. *)
Definition readings (w : World) : float * float * float * float :=
  (ds18_temp w, bme280_temp w, bme280_humi w, bme280_pres w).

(** ** The states and traces the firmware is shown to produce *)

(** The state [loop] leaves when no command has arrived. *)
Definition polled (w : World) : World := set_sc_strIn None (tick_available w).

(** The state [loop] leaves after an "id?" request. *)
Definition identified (w : World) : World :=
  set_neo_pixel (colour_of Idle) (polled w).

(** The state [loop] leaves after a "read sensors" request. *)
Definition sampled (env : Environment) (w : World) : World :=
  mkWorld (ds18_tempC env (n_ds18 w)) (bme_temperature env (n_temperature w))
    (bme_humidity env (n_humidity w)) (bme_pressure env (n_pressure w))
    (colour_of Idle) None (n_begin w) (S (n_temperature w)) (S (n_humidity w))
    (S (n_pressure w)) (S (n_ds18 w)) (S (n_millis w)) (S (n_available w)).

(** The state after [k] more calls of [bme.begin]. *)
Definition begun (k : nat) (w : World) : World :=
  mkWorld (ds18_temp w) (bme280_temp w) (bme280_humi w) (bme280_pres w)
    (neo_pixel w) (sc_strIn w) (n_begin w + k) (n_temperature w)
    (n_humidity w) (n_pressure w) (n_ds18 w) (n_millis w) (n_available w).

(** The state [setup] leaves when the sensor is found after [N] failures. *)
Definition set_up (N : nat) (w : World) : World :=
  mkWorld (ds18_temp w) (bme280_temp w) (bme280_humi w) (bme280_pres w)
    (colour_of Idle) (sc_strIn w) (n_begin w + S N) (S (n_temperature w))
    (S (n_humidity w)) (S (n_pressure w)) (n_ds18 w) (n_millis w)
    (n_available w).

(** The events of [setup] before and after its [while]. *)
Definition prologue : list Event :=
  [EvNeoBegin; EvNeoSetPixelColor 0 (colour_of Initializing);
   EvNeoShow (colour_of Initializing); EvSerialBegin 9600; EvDs18Begin].

Definition warm_up (env : Environment) (w : World) : list Event :=
  [EvBmeReadTemperature (bme_temperature env (n_temperature w));
   EvBmeReadHumidity (bme_humidity env (n_humidity w));
   EvBmeReadPressure (bme_pressure env (n_pressure w))].

Definition go_idle : list Event :=
  [EvNeoSetPixelColor 0 (colour_of Idle); EvNeoShow (colour_of Idle)].

Definition flash : list Event :=
  [EvNeoSetPixelColor 0 (colour_of Sampling); EvNeoShow (colour_of Sampling)].

Definition setup_trace (env : Environment) (w : World) (N : nat) : list Event :=
  prologue ++ retries N ++ [EvBmeBegin 118 true] ++ warm_up env w ++ go_idle.

(** The events of one acquisition pass and the line it ends with. *)
Definition acquisition (String_float : float -> Z -> string)
    (env : Environment) (w : World) : list Event :=
  [EvMillis (uint32_t (uptime_ms env (n_millis w)));
   EvDs18RequestTemperatures;
   EvDs18GetTempCByIndex 0 (ds18_tempC env (n_ds18 w));
   EvBmeReadTemperature (bme_temperature env (n_temperature w));
   EvBmeReadHumidity (bme_humidity env (n_humidity w));
   EvBmeReadPressure (bme_pressure env (n_pressure w));
   EvSerialPrintln
     (response String_float (uint32_t (uptime_ms env (n_millis w)))
        (ds18_tempC env (n_ds18 w)) (bme_temperature env (n_temperature w))
        (bme_humidity env (n_humidity w)) (bme_pressure env (n_pressure w)))].

(** The condition and the body of the [while] of [setup]. *)
Definition sensor_missing (env : Environment) : M bool :=
  ok <- bme_begin env 118 ;; ret (negb ok).

Definition complain : M unit := Serial_println diagnostic ;; delay 1000.

(** The colours the LED is given, flush by flush. *)
Fixpoint shown_colours (tr : list Event) : list Z :=
  match tr with
  | [] => []
  | EvNeoShow c :: tr' => c :: shown_colours tr'
  | _ :: tr' => shown_colours tr'
  end.

(** The LED shows the colour of the phase. *)
Definition lit (c0 : Z) (pt : Point) : Prop := snd pt = colour_in c0 (fst pt).

(** The line of the request to read the sensors that comes [a] such
    requests after the state [w]. *)
Definition line_at (String_float : float -> Z -> string) (env : Environment)
    (w : World) (a : nat) : string :=
  response String_float
    (uint32_t (uptime_ms env (n_millis w + a)))
    (ds18_tempC env (n_ds18 w + a))
    (bme_temperature env (n_temperature w + a))
    (bme_humidity env (n_humidity w + a))
    (bme_pressure env (n_pressure w + a)).

(** ** More of what an observer sees *)

(** The answers of [sc.available] and the commands [sc.getCmd] handed out,
    in order. *)
Fixpoint polls (tr : list Event) : list bool :=
  match tr with
  | [] => []
  | EvScAvailable b :: tr' => b :: polls tr'
  | _ :: tr' => polls tr'
  end.

Fixpoint commands (tr : list Event) : list string :=
  match tr with
  | [] => []
  | EvScGetCmd cmd :: tr' => cmd :: commands tr'
  | _ :: tr' => commands tr'
  end.

(** The test of line 92, and the commands that fail it. *)
Definition is_id (cmd : string) : bool := strcmp cmd "id?" =? 0.

Definition read_requests (tr : list Event) : list string :=
  filter (fun cmd => negb (is_id cmd)) (commands tr).

(** The commands that arrive at the [n] polls from the [k]-th on. *)
Definition arrivals (env : Environment) (k n : nat) : list string :=
  flat_map (fun i => match serial_cmd env i with Some cmd => [cmd] | None => [] end)
    (seq k n).

(** Which of the vendor objects have been begun; [bme] counts as begun once
    [bme.begin] has returned true. *)
Record Begun : Type := mkBegun {
  neo_begun : bool;
  Serial_begun : bool;
  ds18_begun : bool;
  bme_begun : bool
}.

Definition none_begun : Begun := mkBegun false false false false.
Definition all_begun : Begun := mkBegun true true true true.

Definition begin_step (b : Begun) (e : Event) : Begun :=
  match e with
  | EvNeoBegin => mkBegun true (Serial_begun b) (ds18_begun b) (bme_begun b)
  | EvSerialBegin _ => mkBegun (neo_begun b) true (ds18_begun b) (bme_begun b)
  | EvDs18Begin => mkBegun (neo_begun b) (Serial_begun b) true (bme_begun b)
  | EvBmeBegin _ true => mkBegun (neo_begun b) (Serial_begun b) (ds18_begun b) true
  | _ => b
  end.

(** An event uses an object only if the object has been begun; [sc] reads
    from [Serial] (line 35). *)
Definition use_ok (b : Begun) (e : Event) : bool :=
  match e with
  | EvNeoSetPixelColor _ _ | EvNeoShow _ => neo_begun b
  | EvSerialPrintln _ | EvScAvailable _ | EvScGetCmd _ => Serial_begun b
  | EvDs18RequestTemperatures | EvDs18GetTempCByIndex _ _ => ds18_begun b
  | EvBmeReadTemperature _ | EvBmeReadHumidity _ | EvBmeReadPressure _ =>
      bme_begun b
  | _ => true
  end.

Fixpoint begun_before_use (b : Begun) (tr : list Event) : bool :=
  match tr with
  | [] => true
  | e :: tr' => use_ok b e && begun_before_use (begin_step b e) tr'
  end.

Definition begun_after (b : Begun) (tr : list Event) : Begun :=
  fold_left begin_step tr b.

(** A formatter that prints only a tab, and an uptime that passes 2^32 ms
    between two polls that each bring the empty command: the inputs of two
    of the witnesses below. *)
Definition String_float_tab (v : float) (decimalPlaces : Z) : string :=
  String TAB EmptyString.

Definition env_rollover : Environment := {|
  bme_begin_ok := fun _ => true;
  bme_temperature := fun _ => NAN;
  bme_humidity := fun _ => NAN;
  bme_pressure := fun _ => NAN;
  ds18_tempC := fun _ => NAN;
  uptime_ms := fun k => 4294967000 + 1000 * Z.of_nat k;
  serial_cmd := fun _ => Some EmptyString
|}.

(** ** A bench to run the firmware on *)

Module Bench.

(** binary32 values next to 21.3, 21.5, 45.2 and 101325. *)
Definition f21_3 : float := S754_finite false 11167334 (-19).
Definition f21_5 : float := S754_finite false 11272192 (-19).
Definition f45_2 : float := S754_finite false 11848909 (-18).
Definition f101325 : float := S754_finite false 12969600 (-7).

(** A sensor that is found at the third attempt, steady readings, a clock
    that advances 1000 ms between calls of [millis], and the commands
    "id?", "", none, "ID?" and then "x" at every later poll. *)
Definition env : Environment := {|
  bme_begin_ok := fun k => (2 <=? k)%nat;
  bme_temperature := fun k => match k with O => NAN | _ => f21_5 end;
  bme_humidity := fun k => match k with O => S754_zero false | _ => f45_2 end;
  bme_pressure := fun _ => f101325;
  ds18_tempC := fun k => match k with O => f21_3 | _ => NAN end;
  uptime_ms := fun k => 123456 + 1000 * Z.of_nat k;
  serial_cmd := fun k =>
    match k with
    | 0%nat => Some "id?"
    | 1%nat => Some ""
    | 2%nat => None
    | 3%nat => Some "ID?"
    | _ => Some "x"
    end
|}.

(** A sensor that never answers. *)
Definition env_absent : Environment := {|
  bme_begin_ok := fun _ => false;
  bme_temperature := fun _ => NAN;
  bme_humidity := fun _ => NAN;
  bme_pressure := fun _ => NAN;
  ds18_tempC := fun _ => NAN;
  uptime_ms := fun _ => 0;
  serial_cmd := fun _ => None
|}.

(** The state after [setup] and the "id?" of the first poll, and the state
    two polls later, after the empty command and a poll without command. *)
Definition ready : World := identified (set_up 2 boot).
Definition again : World := polled (sampled env ready).

End Bench.

(** * Properties *)

(** ** C strings *)

Lemma byte_of_inj (c1 c2 : ascii) : byte_of c1 = byte_of c2 -> c1 = c2.
Proof.
  unfold byte_of. intros H. apply N2Z.inj in H.
  rewrite <- (ascii_N_embedding c1), <- (ascii_N_embedding c2).
  now rewrite H.
Qed.

Lemma byte_of_zero (c : ascii) : byte_of c = 0 <-> c = NUL.
Proof.
  split.
  - intros H. apply byte_of_inj. now rewrite H.
  - intros ->. reflexivity.
Qed.

Lemma strcmp_zero_iff (s1 s2 : string) :
  strcmp s1 s2 = 0 <-> c_str s1 = c_str s2.
Proof.
  revert s2. induction s1 as [|c1 r1 IH]; intros [|c2 r2]; simpl.
  - tauto.
  - destruct (Ascii.eqb_spec c2 NUL) as [->|Hc].
    + split; reflexivity.
    + split; [|discriminate]. intros H. exfalso. apply Hc, byte_of_zero. lia.
  - destruct (Ascii.eqb_spec c1 NUL) as [->|Hc].
    + split; reflexivity.
    + split; [|discriminate]. intros H. exfalso. apply Hc, byte_of_zero. lia.
  - destruct (Ascii.eqb_spec c1 c2) as [->|Hne].
    + destruct (Ascii.eqb_spec c2 NUL) as [->|Hc]; [tauto|].
      rewrite IH. split; [now intros -> | now intros [= ->]].
    + split.
      * intros H. exfalso. apply Hne, byte_of_inj. lia.
      * destruct (Ascii.eqb_spec c1 NUL), (Ascii.eqb_spec c2 NUL);
          subst; try discriminate; try congruence.
Qed.

Lemma strcmp_id_true (cmd : string) :
  c_str cmd = "id?" -> (strcmp cmd "id?" =? 0) = true.
Proof.
  intros H. apply Z.eqb_eq, strcmp_zero_iff. now rewrite H.
Qed.

Lemma strcmp_id_false (cmd : string) :
  c_str cmd <> "id?" -> (strcmp cmd "id?" =? 0) = false.
Proof.
  intros H. apply Z.eqb_neq. intros E. apply H.
  now apply strcmp_zero_iff in E.
Qed.

(** ** Lines and fields *)

Lemma append_nil_r (s : string) : (s ++ "")%string = s.
Proof. induction s; simpl; congruence. Qed.

Lemma fields_from_last (a cur : string) :
  has_tab a = false -> fields_from cur a = [(cur ++ a)%string].
Proof.
  revert cur. induction a as [|c a IH]; intros cur H; simpl in *.
  - now rewrite append_nil_r.
  - apply orb_false_iff in H as [Hc Ha]. rewrite Hc.
    rewrite IH by assumption. f_equal. unfold plus_char.
    clear. induction cur; simpl; congruence.
Qed.

Lemma fields_from_tab (a b cur : string) :
  fields_from cur (a ++ String TAB b) =
  (fields_from cur a ++ fields_from EmptyString b)%list.
Proof.
  revert cur. induction a as [|c a IH]; intros cur; simpl.
  - reflexivity.
  - destruct (Ascii.eqb c TAB); simpl; now rewrite IH.
Qed.

Lemma append_assoc (a b c : string) :
  ((a ++ b) ++ c)%string = (a ++ (b ++ c))%string.
Proof. induction a; simpl; congruence. Qed.

(** A tab put between two strings separates the fields of the first from
    those of the second. *)
Lemma fields_tab (a b : string) :
  fields (a +c TAB +s b) = (fields a ++ fields b)%list.
Proof.
  unfold fields, plus_str, plus_char.
  rewrite append_assoc. simpl. apply fields_from_tab.
Qed.

Lemma fields_one (f : string) : has_tab f = false -> fields f = [f].
Proof. intros H. unfold fields. now rewrite fields_from_last. Qed.

Lemma uint_no_tab (d : Decimal.uint) :
  has_tab (NilEmpty.string_of_uint d) = false.
Proof. induction d; simpl; auto. Qed.

Lemma String_ulong_no_tab (n : Z) : has_tab (String_ulong n) = false.
Proof. apply uint_no_tab. Qed.

Lemma String_ulong_nonempty (n : Z) : String_ulong n <> EmptyString.
Proof.
  unfold String_ulong. destruct (Z.to_N n) as [|p]; [discriminate|].
  simpl. unfold Pos.to_uint.
  pose proof (DecimalPos.Unsigned.to_uint_nonnil p) as Hn.
  unfold Pos.to_uint in Hn.
  destruct (Decimal.rev (Pos.to_little_uint p)); simpl; congruence.
Qed.

(** The printed timestamp reads back as the number that was printed. *)
Lemma parse_String_ulong (n : Z) : 0 <= n -> parse_ulong (String_ulong n) = Some n.
Proof.
  intros Hn. unfold parse_ulong.
  pose proof (String_ulong_nonempty n) as Hne.
  destruct (String_ulong n) eqn:E; [congruence|].
  rewrite <- E. unfold String_ulong. rewrite NilEmpty.usu. simpl.
  rewrite DecimalN.Unsigned.of_to. f_equal. lia.
Qed.

(** ** Running a program step by step *)

Local Open Scope list_scope.

Lemma bind_Returned {A B : Type} (m : M A) (k : A -> M B) w a w1 t1 b w2 t2 :
  m w = Returned a w1 t1 ->
  k a w1 = Returned b w2 t2 ->
  bind m k w = Returned b w2 (t1 ++ t2).
Proof. intros H1 H2. unfold bind. now rewrite H1, H2. Qed.

Lemma bind_Spinning {A B : Type} (m : M A) (k : A -> M B) w a w1 t1 t2 :
  m w = Returned a w1 t1 ->
  k a w1 = Spinning t2 ->
  bind m k w = Spinning (t1 ++ t2).
Proof. intros H1 H2. unfold bind. now rewrite H1, H2. Qed.

Lemma outcome_eq {A : Type} (o : Outcome A) a w1 t1 w2 t2 :
  o = Returned a w1 t1 -> w1 = w2 -> t1 = t2 -> o = Returned a w2 t2.
Proof. now intros -> -> ->. Qed.

(** Brings a state built by setters from a literal state into the form of
    a literal state. *)
Ltac flatten :=
  cbv beta iota delta
    [set_ds18_temp set_bme280_temp set_bme280_humi set_bme280_pres
     set_neo_pixel set_sc_strIn tick_begin tick_temperature tick_humidity
     tick_pressure tick_ds18 tick_millis tick_available
     ds18_temp bme280_temp bme280_humi bme280_pres neo_pixel sc_strIn
     n_begin n_temperature n_humidity n_pressure n_ds18 n_millis
     n_available].

(** Solves [op w = Returned ?a ?w' ?t] for one call [op] of a vendor object. *)
Ltac prim :=
  unfold sc_getCmd, neo_begin, neo_setPixelColor, neo_show, Serial_begin,
    Serial_println, delay, millis, ds18_begin, ds18_requestTemperatures,
    ds18_getTempCByIndex, bme_begin, bme_readTemperature, bme_readHumidity,
    bme_readPressure, emit, load, store, ret;
  try change ((0 <=? 0) && (0 <? 1)) with true;
  flatten; reflexivity.

(** Solves [prog w = Returned ?a ?w' ?t] for a straight-line [prog]. *)
Ltac exec :=
  cbv beta iota;
  lazymatch goal with
  | |- bind _ _ _ = _ => eapply bind_Returned; [ exec | exec ]
  | |- _ => prim
  end.

(** Runs the first statement of a sequence. *)
Ltac step := eapply bind_Returned; [ solve [exec] | cbv beta iota ].

(** ** One call of [loop] *)

Section LoopRuns.

Variable String_float : float -> Z -> string.
Variable env : Environment.

Lemma sc_available_some (w : World) (cmd : string) :
  received env w = Some cmd ->
  sc_available env w =
  Returned true (set_sc_strIn (Some cmd) (tick_available w))
    [EvScAvailable true].
Proof. intros H. unfold sc_available. now rewrite H. Qed.

Lemma loop_no_command (w : World) :
  received env w = None ->
  loop String_float env w = Returned tt (polled w) [EvScAvailable false].
Proof.
  intros H. unfold loop, bind, sc_available. rewrite H. reflexivity.
Qed.

Lemma loop_id (w : World) (cmd : string) :
  received env w = Some cmd ->
  c_str cmd = "id?" ->
  loop String_float env w =
  Returned tt (identified w)
    ([EvScAvailable true; EvScGetCmd cmd] ++ flash ++
     [EvSerialPrintln identity] ++ go_idle).
Proof.
  intros H Hid. unfold loop.
  destruct w as [tp te he pe px held nb nt nh np nd nm na].
  eapply outcome_eq.
  - eapply bind_Returned; [apply (sc_available_some _ _ H)|].
    flatten. do 3 step.
    rewrite (strcmp_id_true cmd Hid). exec.
  - reflexivity.
  - reflexivity.
Qed.

Lemma loop_read (w : World) (cmd : string) :
  received env w = Some cmd ->
  c_str cmd <> "id?" ->
  loop String_float env w =
  Returned tt (sampled env w)
    ([EvScAvailable true; EvScGetCmd cmd] ++ flash ++
     acquisition String_float env w ++ go_idle).
Proof.
  intros H Hid. unfold loop.
  destruct w as [tp te he pe px held nb nt nh np nd nm na].
  eapply outcome_eq.
  - eapply bind_Returned; [apply (sc_available_some _ _ H)|].
    flatten. do 3 step.
    rewrite (strcmp_id_false cmd Hid). exec.
  - reflexivity.
  - reflexivity.
Qed.

(** The three ways a call of [loop] can go. *)
Lemma loop_cases (w : World) :
  (received env w = None /\
   loop String_float env w = Returned tt (polled w) [EvScAvailable false]) \/
  (exists cmd, received env w = Some cmd /\ c_str cmd = "id?" /\
     loop String_float env w =
     Returned tt (identified w)
       ([EvScAvailable true; EvScGetCmd cmd] ++ flash ++
        [EvSerialPrintln identity] ++ go_idle)) \/
  (exists cmd, received env w = Some cmd /\ c_str cmd <> "id?" /\
     loop String_float env w =
     Returned tt (sampled env w)
       ([EvScAvailable true; EvScGetCmd cmd] ++ flash ++
        acquisition String_float env w ++ go_idle)).
Proof.
  destruct (received env w) as [cmd|] eqn:H.
  - right. destruct (string_dec (c_str cmd) "id?") as [Hid|Hid].
    + left. exists cmd. auto using loop_id.
    + right. exists cmd. auto using loop_read.
  - left. auto using loop_no_command.
Qed.

Lemma loops_S (n : nat) (w w1 w2 : World) (t1 t2 : list Event) :
  loop String_float env w = Returned tt w1 t1 ->
  loops String_float env n w1 = Returned tt w2 t2 ->
  loops String_float env (S n) w = Returned tt w2 (t1 ++ t2).
Proof. intros H1 H2. simpl. eapply bind_Returned; eassumption. Qed.

(** [loop] has no loop of its own: any number of calls returns. *)
Lemma loops_return (n : nat) (w : World) :
  exists w' tr, loops String_float env n w = Returned tt w' tr.
Proof.
  revert w. induction n as [|n IH]; intros w.
  - now exists w, [].
  - destruct (loop_cases w) as [[_ H]|[(cmd & _ & _ & H)|(cmd & _ & _ & H)]];
      match type of H with _ = Returned tt ?w1 _ =>
        destruct (IH w1) as (w2 & t2 & H2) end;
      eexists; eexists; eapply loops_S; eassumption.
Qed.

End LoopRuns.

(** ** [setup] *)

Section SetupRuns.

Variable env : Environment.

Lemma found_after_next (w : World) (N : nat) :
  found_after env w (S N) -> found_after env (tick_begin w) N.
Proof.
  intros [Hf Hs]. split.
  - intros k Hk. simpl. rewrite <- Nat.add_succ_r. apply Hf. lia.
  - simpl. now rewrite <- Nat.add_succ_r.
Qed.

Lemma begun_tick (k : nat) (w : World) :
  begun k (tick_begin w) = begun (S k) w.
Proof. unfold begun. simpl. now rewrite Nat.add_succ_r. Qed.

Lemma sensor_missing_run (w : World) :
  sensor_missing env w =
  Returned (negb (bme_begin_ok env (n_begin w))) (tick_begin w)
    [EvBmeBegin 118 (bme_begin_ok env (n_begin w))].
Proof. reflexivity. Qed.

Lemma complain_run (w : World) :
  complain w = Returned tt w [EvSerialPrintln diagnostic; EvDelay 1000].
Proof. reflexivity. Qed.

(** The [while] of [setup] goes round once per failure and ends at the
    first success. *)
Lemma while_found (N : nat) :
  forall (fuel : nat) (w : World),
    found_after env w N -> (N < fuel)%nat ->
    while fuel (sensor_missing env) complain w =
    Returned tt (begun (S N) w) (retries N ++ [EvBmeBegin 118 true]).
Proof.
  induction N as [|N IH]; intros [|fuel] w Hfound Hlt; try lia.
  - destruct Hfound as [_ Hs]. rewrite Nat.add_0_r in Hs.
    simpl while. eapply outcome_eq.
    + eapply bind_Returned; [apply sensor_missing_run|].
      rewrite Hs. reflexivity.
    + unfold begun, tick_begin. now rewrite Nat.add_1_r.
    + now rewrite Hs.
  - pose proof (proj1 Hfound 0%nat ltac:(lia)) as Hf.
    rewrite Nat.add_0_r in Hf.
    simpl while. eapply outcome_eq.
    + eapply bind_Returned; [apply sensor_missing_run|].
      rewrite Hf. cbv beta iota delta [negb].
      eapply bind_Returned; [apply complain_run|].
      apply IH; [now apply found_after_next | lia].
    + apply begun_tick.
    + now rewrite Hf.
Qed.

(** While the sensor is not found the [while] does not end. *)
Lemma while_missing (fuel : nat) :
  forall w : World,
    (forall k, (k < fuel)%nat -> bme_begin_ok env (n_begin w + k) = false) ->
    while fuel (sensor_missing env) complain w = Spinning (retries fuel).
Proof.
  induction fuel as [|fuel IH]; intros w Hf; [reflexivity|].
  pose proof (Hf 0%nat ltac:(lia)) as H0. rewrite Nat.add_0_r in H0.
  simpl while.
  replace (retries (S fuel))
    with ([EvBmeBegin 118 (bme_begin_ok env (n_begin w))] ++
          [EvSerialPrintln diagnostic; EvDelay 1000] ++ retries fuel)
    by now rewrite H0.
  eapply bind_Spinning; [apply sensor_missing_run|].
  rewrite H0. cbv beta iota delta [negb].
  eapply bind_Spinning; [apply complain_run|].
  apply IH. intros k Hk. simpl. rewrite <- Nat.add_succ_r. apply Hf. lia.
Qed.

Lemma setup_found (w : World) (N fuel : nat) :
  found_after env w N -> (N < fuel)%nat ->
  setup env fuel w = Returned tt (set_up N w) (setup_trace env w N).
Proof.
  intros Hfound Hlt. unfold setup.
  destruct w as [tp te he pe px held nb nt nh np nd nm na].
  eapply outcome_eq.
  - do 5 step.
    eapply bind_Returned.
    { apply (while_found N); [exact Hfound | exact Hlt]. }
    unfold begun. flatten. exec.
  - reflexivity.
  - unfold setup_trace, prologue. simpl. now rewrite <- app_assoc.
Qed.

Lemma setup_missing (w : World) (fuel : nat) :
  (forall k, (k < fuel)%nat -> bme_begin_ok env (n_begin w + k) = false) ->
  setup env fuel w = Spinning (prologue ++ retries fuel).
Proof.
  intros Hf. unfold setup.
  destruct w as [tp te he pe px held nb nt nh np nd nm na].
  change (prologue ++ retries fuel)
    with ([EvNeoBegin] ++ [EvNeoSetPixelColor 0 (colour_of Initializing)] ++
          [EvNeoShow (colour_of Initializing)] ++ [EvSerialBegin 9600] ++
          [EvDs18Begin] ++ retries fuel).
  eapply bind_Spinning; [exec|]. cbv beta iota.
  eapply bind_Spinning; [exec|]. cbv beta iota.
  eapply bind_Spinning; [exec|]. cbv beta iota.
  eapply bind_Spinning; [exec|]. cbv beta iota.
  eapply bind_Spinning; [exec|]. cbv beta iota.
  unfold bind.
  rewrite (while_missing fuel) by exact Hf. reflexivity.
Qed.

End SetupRuns.

(** ** Observers and concatenation *)

Lemma printed_app (a b : list Event) : printed (a ++ b) = printed a ++ printed b.
Proof.
  induction a as [|e a IH]; [reflexivity|].
  destruct e; simpl; rewrite IH; reflexivity.
Qed.

Lemma delays_app (a b : list Event) : delays (a ++ b) = delays a ++ delays b.
Proof.
  induction a as [|e a IH]; [reflexivity|].
  destruct e; simpl; rewrite IH; reflexivity.
Qed.

Lemma shown_colours_app (a b : list Event) :
  shown_colours (a ++ b) = shown_colours a ++ shown_colours b.
Proof.
  induction a as [|e a IH]; [reflexivity|].
  destruct e; simpl; rewrite IH; reflexivity.
Qed.

Lemma sensor_reads_app (a b : list Event) :
  sensor_reads (a ++ b) = sensor_reads a ++ sensor_reads b.
Proof. apply filter_app. Qed.

Lemma sensor_accesses_app (a b : list Event) :
  sensor_accesses (a ++ b) = sensor_accesses a ++ sensor_accesses b.
Proof. apply filter_app. Qed.

Lemma printed_retries (N : nat) : printed (retries N) = repeat diagnostic N.
Proof. induction N as [|N IH]; simpl; congruence. Qed.

Lemma delays_retries (N : nat) : delays (retries N) = repeat 1000 N.
Proof. induction N as [|N IH]; simpl; congruence. Qed.

Lemma shown_colours_retries (N : nat) : shown_colours (retries N) = [].
Proof. induction N as [|N IH]; simpl; congruence. Qed.

Lemma sensor_reads_retries (N : nat) : sensor_reads (retries N) = [].
Proof. induction N as [|N IH]; simpl; congruence. Qed.

Lemma Forall_points_app (P : Point -> Prop) (pt : Point) (a b : list Event) :
  Forall P (points pt a) ->
  Forall P (points (end_point pt a) b) ->
  Forall P (points pt (a ++ b)).
Proof.
  revert pt. induction a as [|e a IH]; intros pt Ha Hb; simpl in *.
  - exact Hb.
  - inversion Ha; subst. constructor; [assumption|]. now apply IH.
Qed.

Lemma Forall_observations_app (P : Z * Event * Z -> Prop) (c : Z)
    (a b : list Event) :
  Forall P (observations c a) ->
  Forall P (observations (shown_after c a) b) ->
  Forall P (observations c (a ++ b)).
Proof.
  revert c. induction a as [|e a IH]; intros c Ha Hb; simpl in *.
  - exact Hb.
  - inversion Ha; subst. constructor; [assumption|]. now apply IH.
Qed.

Lemma shown_after_app (c : Z) (a b : list Event) :
  shown_after c (a ++ b) = shown_after (shown_after c a) b.
Proof. apply fold_left_app. Qed.

Lemma end_point_app (pt : Point) (a b : list Event) :
  end_point pt (a ++ b) = end_point (end_point pt a) b.
Proof. apply fold_left_app. Qed.

Lemma points_retries (P : Point -> Prop) (c : Z) (N : nat) :
  P (Starting, c) ->
  Forall P (points (Starting, c) (retries N)) /\
  end_point (Starting, c) (retries N) = (Starting, c).
Proof.
  intros H. induction N as [|N [IH1 IH2]]; simpl.
  - split; [now constructor | reflexivity].
  - split; [| exact IH2].
    repeat (constructor; [exact H|]). exact IH1.
Qed.

(** ** Whether the sensor is found within a budget *)

Lemma found_or_missing (env : Environment) (fuel : nat) :
  forall w : World,
    (exists N, (N < fuel)%nat /\ found_after env w N) \/
    (forall k, (k < fuel)%nat -> bme_begin_ok env (n_begin w + k) = false).
Proof.
  induction fuel as [|fuel IH]; intros w.
  - right. intros k Hk. lia.
  - destruct (IH w) as [(N & HN & Hfound)|Hmiss].
    + left. exists N. split; [lia | assumption].
    + destruct (bme_begin_ok env (n_begin w + fuel)) eqn:E.
      * left. exists fuel. split; [lia|]. split; assumption.
      * right. intros k Hk.
        destruct (Nat.eq_dec k fuel) as [->|Hne]; [assumption|].
        apply Hmiss. lia.
Qed.

(** ** The reference formatter prints no tab *)

Lemma has_tab_app (a b : string) :
  has_tab (a ++ b)%string = has_tab a || has_tab b.
Proof.
  induction a as [|c a IH]; [reflexivity|].
  simpl. rewrite IH. now rewrite orb_assoc.
Qed.

Lemma has_tab_blanks (n : nat) (c : ascii) :
  Ascii.eqb c TAB = false -> has_tab (blanks n c) = false.
Proof. intros H. induction n as [|n IH]; simpl; [reflexivity|]. now rewrite H. Qed.

Lemma has_tab_pad_left (width : nat) (c : ascii) (s : string) :
  Ascii.eqb c TAB = false -> has_tab s = false ->
  has_tab (pad_left width c s) = false.
Proof.
  intros Hc Hs. unfold pad_left.
  now rewrite has_tab_app, has_tab_blanks, Hs.
Qed.

Lemma has_tab_digits_fixed (q p : Z) : has_tab (digits_fixed q p) = false.
Proof.
  unfold digits_fixed. destruct (p =? 0); [apply String_ulong_no_tab|].
  rewrite !has_tab_app, String_ulong_no_tab.
  rewrite has_tab_pad_left; auto using String_ulong_no_tab.
Qed.

Lemma has_tab_signed (s : bool) (body : string) :
  has_tab body = false -> has_tab (signed s body) = false.
Proof. intros H. destruct s; simpl; assumption. Qed.

Lemma String_float_ref_no_tab (v : float) (d : Z) :
  has_tab (String_float_ref v d) = false.
Proof.
  unfold String_float_ref, dtostrf.
  apply has_tab_pad_left; [reflexivity|].
  destruct v as [s|s| |s m e];
    auto using has_tab_signed, has_tab_digits_fixed.
Qed.

(** ** The line of a request to read the sensors *)

Lemma response_fields (String_float : float -> Z -> string)
    (now : Z) (t_probe t_env h_env p_env : float) :
  (forall v d, has_tab (String_float v d) = false) ->
  fields (response String_float now t_probe t_env h_env p_env) =
  [String_ulong now; String_float t_probe 1; String_float t_env 1;
   String_float h_env 1; String_float p_env 0].
Proof.
  intros Hfmt. unfold response. rewrite !fields_tab.
  rewrite (fields_one (String_ulong _)) by apply String_ulong_no_tab.
  rewrite !fields_one by apply Hfmt.
  reflexivity.
Qed.

Lemma read_request_fields (String_float : float -> Z -> string)
    (env : Environment) (w : World) (cmd : string) :
  received env w = Some cmd ->
  c_str cmd <> "id?" ->
  (forall v d, has_tab (String_float v d) = false) ->
  exists (w' : World) (tr : list Event) (line : string),
    loop String_float env w = Returned tt w' tr /\
    printed tr = [line] /\
    fields line =
      [String_ulong (uint32_t (uptime_ms env (n_millis w)));
       String_float (ds18_tempC env (n_ds18 w)) 1;
       String_float (bme_temperature env (n_temperature w)) 1;
       String_float (bme_humidity env (n_humidity w)) 1;
       String_float (bme_pressure env (n_pressure w)) 0] /\
    ds18_temp w' = ds18_tempC env (n_ds18 w).
Proof.
  intros Hcmd Hid Hfmt. eexists. eexists. eexists.
  split; [apply (loop_read String_float env w cmd Hcmd Hid)|].
  split; [reflexivity|].
  split; [apply (response_fields String_float _ _ _ _ _ Hfmt) | reflexivity].
Qed.

(** * The claims *)

(** C1.  Every command other than "id?" (the empty one and any other bytes
    included) is a request to read the sensors: [loop] reads the probe
    temperature, the environment temperature, the humidity and the pressure,
    each once and in this order, and prints one line, whose five
    tab-separated fields are the timestamp as an unsigned decimal number,
    the three readings with one decimal and the pressure with none.  A
    formatter of floats that prints no tab is assumed, so that the fields
    of the line are the five pieces it was put together from. *)
Theorem read_request_response (String_float : float -> Z -> string)
    (env : Environment) (w : World) (cmd : string) :
  received env w = Some cmd ->
  c_str cmd <> "id?" ->
  (forall v d, has_tab (String_float v d) = false) ->
  exists (w' : World) (tr : list Event) (line : string),
    loop String_float env w = Returned tt w' tr /\
    sensor_reads tr =
      [EvDs18GetTempCByIndex 0 (ds18_tempC env (n_ds18 w));
       EvBmeReadTemperature (bme_temperature env (n_temperature w));
       EvBmeReadHumidity (bme_humidity env (n_humidity w));
       EvBmeReadPressure (bme_pressure env (n_pressure w))] /\
    printed tr = [line] /\
    fields line =
      [String_ulong (uint32_t (uptime_ms env (n_millis w)));
       String_float (ds18_tempC env (n_ds18 w)) 1;
       String_float (bme_temperature env (n_temperature w)) 1;
       String_float (bme_humidity env (n_humidity w)) 1;
       String_float (bme_pressure env (n_pressure w)) 0] /\
    parse_ulong (String_ulong (uint32_t (uptime_ms env (n_millis w)))) =
      Some (uint32_t (uptime_ms env (n_millis w))) /\
    0 <= uint32_t (uptime_ms env (n_millis w)) < 2 ^ 32.
Proof.
  intros Hcmd Hid Hfmt.
  assert (Hrange : 0 <= uint32_t (uptime_ms env (n_millis w)) < 2 ^ 32)
    by (unfold uint32_t; apply Z.mod_pos_bound; lia).
  eexists. eexists. eexists.
  split; [apply (loop_read String_float env w cmd Hcmd Hid)|].
  split; [reflexivity|].
  split; [reflexivity|].
  split; [| split; [apply parse_String_ulong; lia | exact Hrange]].
  apply (response_fields String_float _ _ _ _ _ Hfmt).
Qed.

Lemma read_request_response_witness :
  received Bench.env Bench.ready = Some ""%string /\
  c_str "" <> "id?" /\
  (forall v d, has_tab (String_float_ref v d) = false) /\
  exists (w' : World) (tr : list Event) (line : string),
    loop String_float_ref Bench.env Bench.ready = Returned tt w' tr /\
    List.length (sensor_reads tr) = 4%nat /\
    printed tr = [line] /\
    fields line = ["123456"; "21.3"; "21.5"; "45.2"; "101325"]%string.
Proof.
  split; [reflexivity|]. split; [discriminate|].
  split; [exact String_float_ref_no_tab|].
  destruct (read_request_response String_float_ref Bench.env Bench.ready ""
              eq_refl ltac:(discriminate) String_float_ref_no_tab)
    as (w' & tr & line & Hrun & Hreads & Hprinted & Hfields & _).
  exists w', tr, line.
  split; [exact Hrun|]. split; [now rewrite Hreads|].
  split; [exact Hprinted|]. rewrite Hfields. reflexivity.
Defined.

(** C2.  A command that is exactly "id?" is answered with the one line
    "Arduino, Dodecahedron logger", and no sensor is touched while it is
    handled: no value is read and no conversion is requested. *)
Theorem id_request_response (String_float : float -> Z -> string)
    (env : Environment) (w : World) (cmd : string) :
  received env w = Some cmd ->
  c_str cmd = "id?" ->
  exists (w' : World) (tr : list Event),
    loop String_float env w = Returned tt w' tr /\
    printed tr = ["Arduino, Dodecahedron logger"%string] /\
    sensor_reads tr = [] /\
    sensor_accesses tr = [].
Proof.
  intros Hcmd Hid. eexists. eexists.
  split; [apply (loop_id String_float env w cmd Hcmd Hid)|].
  repeat split.
Qed.

Lemma id_request_response_witness :
  received Bench.env (set_up 2 boot) = Some "id?"%string /\
  c_str "id?" = "id?"%string /\
  exists (w' : World) (tr : list Event),
    loop String_float_ref Bench.env (set_up 2 boot) = Returned tt w' tr /\
    printed tr = ["Arduino, Dodecahedron logger"%string] /\
    sensor_reads tr = [] /\
    sensor_accesses tr = [].
Proof.
  split; [reflexivity|]. split; [reflexivity|].
  exact (id_request_response String_float_ref Bench.env (set_up 2 boot) "id?"
           eq_refl eq_refl).
Defined.

(** C3.  In a request to read the sensors the line is printed directly
    after the four reads, made in the order probe temperature, environment
    temperature, humidity, pressure; nothing is printed before or after it,
    and its four readings are the four globals as they stand once all four
    have been assigned in this request, which are the values these reads
    returned, whatever the globals held before. *)
Theorem response_reports_fresh_snapshot (String_float : float -> Z -> string)
    (env : Environment) (w : World) (cmd : string) :
  received env w = Some cmd ->
  c_str cmd <> "id?" ->
  exists (w' : World) (pre post : list Event),
    loop String_float env w =
    Returned tt w'
      (pre ++
       [EvDs18GetTempCByIndex 0 (ds18_tempC env (n_ds18 w));
        EvBmeReadTemperature (bme_temperature env (n_temperature w));
        EvBmeReadHumidity (bme_humidity env (n_humidity w));
        EvBmeReadPressure (bme_pressure env (n_pressure w));
        EvSerialPrintln
          (response String_float (uint32_t (uptime_ms env (n_millis w)))
             (ds18_temp w') (bme280_temp w') (bme280_humi w')
             (bme280_pres w'))] ++
       post) /\
    sensor_reads pre = [] /\ printed pre = [] /\
    sensor_reads post = [] /\ printed post = [] /\
    readings w' =
      (ds18_tempC env (n_ds18 w), bme_temperature env (n_temperature w),
       bme_humidity env (n_humidity w), bme_pressure env (n_pressure w)).
Proof.
  intros Hcmd Hid.
  exists (sampled env w).
  exists ([EvScAvailable true; EvScGetCmd cmd] ++ flash ++
          [EvMillis (uint32_t (uptime_ms env (n_millis w)));
           EvDs18RequestTemperatures]).
  exists go_idle.
  split; [apply (loop_read String_float env w cmd Hcmd Hid)|].
  repeat split.
Qed.

Lemma response_reports_fresh_snapshot_witness :
  received Bench.env Bench.ready = Some ""%string /\
  c_str "" <> "id?" /\
  exists (w' : World) (pre post : list Event),
    loop String_float_ref Bench.env Bench.ready =
    Returned tt w'
      (pre ++
       [EvDs18GetTempCByIndex 0 Bench.f21_3;
        EvBmeReadTemperature Bench.f21_5;
        EvBmeReadHumidity Bench.f45_2;
        EvBmeReadPressure Bench.f101325;
        EvSerialPrintln
          (response String_float_ref 123456
             (ds18_temp w') (bme280_temp w') (bme280_humi w')
             (bme280_pres w'))] ++
       post) /\
    sensor_reads pre = [] /\ printed pre = [] /\
    sensor_reads post = [] /\ printed post = [] /\
    readings w' =
      (Bench.f21_3, Bench.f21_5, Bench.f45_2, Bench.f101325).
Proof.
  split; [reflexivity|]. split; [discriminate|].
  exact (response_reports_fresh_snapshot String_float_ref Bench.env
           Bench.ready "" eq_refl ltac:(discriminate)).
Defined.

(** C9.  When the driver of the probe answers a request to read the
    sensors with NAN, the second field of the line is NAN as the formatter
    prints it; NAN is stored as any other reading, and the line is the one
    line of the request, with its five fields.  A formatter of floats that
    prints no tab is assumed. *)
Theorem absent_probe_sentinel_in_second_field
    (String_float : float -> Z -> string)
    (env : Environment) (w : World) (cmd : string) :
  received env w = Some cmd ->
  c_str cmd <> "id?" ->
  (forall v d, has_tab (String_float v d) = false) ->
  ds18_tempC env (n_ds18 w) = NAN ->
  exists (w' : World) (tr : list Event) (line : string),
    loop String_float env w = Returned tt w' tr /\
    printed tr = [line] /\
    List.length (fields line) = 5%nat /\
    nth 1 (fields line) EmptyString = String_float NAN 1 /\
    ds18_temp w' = NAN.
Proof.
  intros Hcmd Hid Hfmt Hnan.
  destruct (read_request_fields String_float env w cmd Hcmd Hid Hfmt)
    as (w' & tr & line & Hrun & Hprinted & Hfields & Hw').
  exists w', tr, line.
  split; [exact Hrun|]. split; [exact Hprinted|].
  rewrite Hfields, Hw', Hnan. repeat split.
Qed.

Lemma absent_probe_sentinel_in_second_field_witness :
  received Bench.env Bench.again = Some "ID?"%string /\
  c_str "ID?" <> "id?" /\
  (forall v d, has_tab (String_float_ref v d) = false) /\
  ds18_tempC Bench.env (n_ds18 Bench.again) = NAN /\
  exists (w' : World) (tr : list Event) (line : string),
    loop String_float_ref Bench.env Bench.again = Returned tt w' tr /\
    printed tr = [line] /\
    List.length (fields line) = 5%nat /\
    nth 1 (fields line) EmptyString = "nan"%string /\
    ds18_temp w' = NAN.
Proof.
  split; [reflexivity|]. split; [discriminate|].
  split; [exact String_float_ref_no_tab|]. split; [reflexivity|].
  exact (absent_probe_sentinel_in_second_field String_float_ref Bench.env
           Bench.again "ID?" eq_refl ltac:(discriminate)
           String_float_ref_no_tab eq_refl).
Defined.

(** C4.  If [bme.begin] fails [N] times and then succeeds, [setup] returns
    as soon as the [while] is given more than [N] evaluations of its
    condition, and its events are the prologue, [N] rounds of failed
    attempt, diagnostic and [delay(1000)], the attempt that succeeds, and
    then the warm-up reads and the idle colour: the diagnostic is printed
    exactly [N] times and exactly [N] delays of 1000 ms are taken.  With
    [N] evaluations or fewer the [while] is still running, so nothing past
    it happens before the attempt that succeeds; this holds for every [N],
    there is no bound on the retries. *)
Theorem setup_retries_until_found (env : Environment) (w : World) (N : nat) :
  found_after env w N ->
  exists (w' : World) (tr : list Event),
    (forall fuel, (N < fuel)%nat -> setup env fuel w = Returned tt w' tr) /\
    (forall fuel, (fuel <= N)%nat ->
       setup env fuel w = Spinning (prologue ++ retries fuel)) /\
    tr = prologue ++ retries N ++ [EvBmeBegin 118 true] ++
         warm_up env w ++ go_idle /\
    printed tr =
      repeat "Could not find a valid BME280 sensor, check wiring!"%string N /\
    delays tr = repeat 1000 N.
Proof.
  intros Hfound. exists (set_up N w), (setup_trace env w N).
  split; [intros fuel Hlt; now apply setup_found|].
  split.
  { intros fuel Hle. apply setup_missing.
    intros k Hk. apply (proj1 Hfound). lia. }
  split; [reflexivity|].
  unfold setup_trace.
  rewrite !printed_app, !delays_app, printed_retries, delays_retries.
  simpl. now rewrite !app_nil_r.
Qed.

Lemma setup_retries_until_found_witness :
  found_after Bench.env boot 2 /\
  exists (w' : World) (tr : list Event),
    (forall fuel, (2 < fuel)%nat -> setup Bench.env fuel boot = Returned tt w' tr) /\
    (forall fuel, (fuel <= 2)%nat ->
       setup Bench.env fuel boot = Spinning (prologue ++ retries fuel)) /\
    tr = prologue ++ retries 2 ++ [EvBmeBegin 118 true] ++
         warm_up Bench.env boot ++ go_idle /\
    printed tr =
      repeat "Could not find a valid BME280 sensor, check wiring!"%string 2 /\
    delays tr = repeat 1000 2.
Proof.
  assert (H : found_after Bench.env boot 2).
  { split; [|reflexivity]. intros [|[|k]] Hk; [reflexivity | reflexivity | lia]. }
  split; [exact H|].
  exact (setup_retries_until_found Bench.env boot 2 H).
Defined.

(** The two ways [setup] can go within a budget. *)
Lemma setup_outcome (env : Environment) (fuel : nat) (w : World) :
  (exists N, (N < fuel)%nat /\ found_after env w N /\
     setup env fuel w = Returned tt (set_up N w) (setup_trace env w N)) \/
  setup env fuel w = Spinning (prologue ++ retries fuel).
Proof.
  destruct (found_or_missing env fuel w) as [(N & HN & Hfound)|Hmiss].
  - left. exists N. auto using setup_found.
  - right. now apply setup_missing.
Qed.

(** C6, as stated, fails: the colour flushed at the start of [setup] has
    the blue level 8, which is NEO_BRIGHT, not the level NEO_DIM (3) of the
    idle green. *)
Lemma initializing_blue_is_not_dim :
  ~ (forall c : Z,
       nth_error (events_of (setup Bench.env 10 boot)) 2 = Some (EvNeoShow c) ->
       blue_of c = NEO_DIM /\ blue_of c = green_of (colour_of Idle)).
Proof.
  intros H. destruct (H 8 eq_refl) as [Hdim _]. discriminate Hdim.
Qed.

(** C6, amended.  [setup] opens with [neo.begin], the colour
    [Color(0, 0, NEO_BRIGHT)] and a flush: pure blue at the level
    NEO_BRIGHT (8), the level of the green flash of a read-out, above the
    level NEO_DIM (3) of the idle green.  No other colour is flushed until
    the idle green, which is the last thing [setup] does. *)
Theorem initializing_blue_is_bright (env : Environment) (fuel : nat) (w : World) :
  firstn 3 (events_of (setup env fuel w)) =
    [EvNeoBegin; EvNeoSetPixelColor 0 (neo_Color 0 0 NEO_BRIGHT);
     EvNeoShow (neo_Color 0 0 NEO_BRIGHT)] /\
  red_of (neo_Color 0 0 NEO_BRIGHT) = 0 /\
  green_of (neo_Color 0 0 NEO_BRIGHT) = 0 /\
  blue_of (neo_Color 0 0 NEO_BRIGHT) = NEO_BRIGHT /\
  blue_of (neo_Color 0 0 NEO_BRIGHT) = green_of (colour_of Sampling) /\
  green_of (colour_of Idle) = NEO_DIM /\
  NEO_DIM < NEO_BRIGHT /\
  (shown_colours (events_of (setup env fuel w)) = [neo_Color 0 0 NEO_BRIGHT] \/
   exists (w' : World) (tr : list Event),
     setup env fuel w =
       Returned tt w' (tr ++ [EvNeoShow (neo_Color 0 NEO_DIM 0)]) /\
     shown_colours tr = [neo_Color 0 0 NEO_BRIGHT]).
Proof.
  destruct (setup_outcome env fuel w) as [(N & _ & _ & Hrun)|Hrun];
    rewrite Hrun; (split; [reflexivity|]); repeat (split; [reflexivity|]).
  - right. exists (set_up N w).
    exists (prologue ++ retries N ++ [EvBmeBegin 118 true] ++
            warm_up env w ++ [EvNeoSetPixelColor 0 (colour_of Idle)]).
    split.
    + unfold setup_trace, go_idle. rewrite <- !app_assoc. reflexivity.
    + rewrite !shown_colours_app, shown_colours_retries. reflexivity.
  - left. cbv beta iota delta [events_of].
    rewrite shown_colours_app, shown_colours_retries. reflexivity.
Qed.

(** ** Calls of [loop] that handle no request to read the sensors *)

Section OnlyIdentification.

Variable String_float : float -> Z -> string.
Variable env : Environment.

Lemma received_fresh (w : World) (cmd : string) :
  sc_strIn w = None ->
  received env w = Some cmd ->
  serial_cmd env (n_available w) = Some cmd.
Proof.
  intros Hnone. unfold received.
  destruct (serial_cmd env (n_available w)); [auto | congruence].
Qed.

Lemma loops_only_id (n : nat) :
  forall w : World,
    sc_strIn w = None ->
    (forall k cmd, (k < n)%nat ->
       serial_cmd env (n_available w + k) = Some cmd -> c_str cmd = "id?") ->
    exists (w' : World) (tr : list Event),
      loops String_float env n w = Returned tt w' tr /\
      readings w' = readings w /\
      sensor_accesses tr = [].
Proof.
  induction n as [|n IH]; intros w Hnone Hid.
  - exists w, []. repeat split.
  - assert (Hrest : forall w1, n_available w1 = S (n_available w) ->
              forall k cmd, (k < n)%nat ->
                serial_cmd env (n_available w1 + k) = Some cmd ->
                c_str cmd = "id?").
    { intros w1 Hw1 k cmd Hk Hcmd. apply (Hid (S k) cmd); [lia|].
      rewrite Hw1 in Hcmd. now rewrite Nat.add_succ_r. }
    destruct (loop_cases String_float env w)
      as [[_ H]|[(cmd & _ & _ & H)|(cmd & Hcmd & Hne & _)]].
    + destruct (IH (polled w) eq_refl (Hrest (polled w) eq_refl))
        as (w' & tr & Hrun & Hread & Hacc).
      exists w'. eexists. split; [eapply loops_S; eassumption|].
      split; [exact Hread|]. rewrite sensor_accesses_app, Hacc. reflexivity.
    + destruct (IH (identified w) eq_refl (Hrest (identified w) eq_refl))
        as (w' & tr & Hrun & Hread & Hacc).
      exists w'. eexists. split; [eapply loops_S; eassumption|].
      split; [exact Hread|]. rewrite sensor_accesses_app, Hacc. reflexivity.
    + exfalso. apply Hne. apply (Hid 0%nat cmd); [lia|].
      rewrite Nat.add_0_r. now apply received_fresh.
Qed.

End OnlyIdentification.

(** C10.  Handling "id?" leaves the four globals [ds18_temp],
    [bme280_temp], [bme280_humi] and [bme280_pres] as they were.  They
    start as NAN, [setup] does not assign them, and so they are all still
    NAN after [setup] and any number of calls of [loop] in which every
    command that arrived was "id?". *)
Theorem id_request_keeps_readings (String_float : float -> Z -> string)
    (env : Environment) :
  (forall (w : World) (cmd : string),
     received env w = Some cmd ->
     c_str cmd = "id?" ->
     exists (w' : World) (tr : list Event),
       loop String_float env w = Returned tt w' tr /\
       readings w' = readings w) /\
  (forall N fuel n : nat,
     found_after env boot N ->
     (N < fuel)%nat ->
     (forall k cmd, (k < n)%nat -> serial_cmd env k = Some cmd -> c_str cmd = "id?") ->
     exists (w' : World) (tr : list Event),
       firmware String_float env fuel n boot = Returned tt w' tr /\
       readings w' = (NAN, NAN, NAN, NAN)).
Proof.
  split.
  - intros w cmd Hcmd Hid. eexists. eexists.
    split; [apply (loop_id String_float env w cmd Hcmd Hid) | reflexivity].
  - intros N fuel n Hfound Hlt Hid.
    destruct (loops_only_id String_float env n (set_up N boot) eq_refl Hid)
      as (w' & tr & Hrun & Hread & _).
    exists w'. eexists. split.
    + unfold firmware. eapply bind_Returned; [|exact Hrun].
      now apply setup_found.
    + exact Hread.
Qed.

Lemma id_request_keeps_readings_witness :
  (received Bench.env (set_up 2 boot) = Some "id?"%string /\
   c_str "id?" = "id?"%string /\
   exists (w' : World) (tr : list Event),
     loop String_float_ref Bench.env (set_up 2 boot) = Returned tt w' tr /\
     readings w' = readings (set_up 2 boot)) /\
  (found_after Bench.env boot 2 /\
   (2 < 3)%nat /\
   (forall k cmd, (k < 1)%nat ->
      serial_cmd Bench.env k = Some cmd -> c_str cmd = "id?"%string) /\
   exists (w' : World) (tr : list Event),
     firmware String_float_ref Bench.env 3 1 boot = Returned tt w' tr /\
     readings w' = (NAN, NAN, NAN, NAN)).
Proof.
  assert (Hfound : found_after Bench.env boot 2).
  { split; [|reflexivity]. intros [|[|k]] Hk; [reflexivity | reflexivity | lia]. }
  assert (Hid : forall k cmd, (k < 1)%nat ->
            serial_cmd Bench.env k = Some cmd -> c_str cmd = "id?"%string).
  { intros [|k] cmd Hk Hcmd; [|lia]. injection Hcmd as <-. reflexivity. }
  split.
  - split; [reflexivity|]. split; [reflexivity|].
    exact (proj1 (id_request_keeps_readings String_float_ref Bench.env)
             (set_up 2 boot) "id?"%string eq_refl eq_refl).
  - split; [exact Hfound|]. split; [lia|]. split; [exact Hid|].
    exact (proj2 (id_request_keeps_readings String_float_ref Bench.env)
             2%nat 3%nat 1%nat Hfound ltac:(lia) Hid).
Defined.

(** ** The LED along a run *)

Section Indicator.

Variable String_float : float -> Z -> string.
Variable env : Environment.
Variable c0 : Z.

Lemma setup_indicator (w : World) (N : nat) :
  Forall (lit c0) (points (PowerUp, c0) (setup_trace env w N)) /\
  end_point (PowerUp, c0) (setup_trace env w N) = (Waiting, colour_of Idle).
Proof.
  unfold setup_trace.
  destruct (points_retries (lit c0) (colour_of Initializing) N eq_refl)
    as [Hpts Hend].
  split.
  - apply Forall_points_app; [repeat constructor|].
    apply Forall_points_app; [exact Hpts|].
    change (end_point (PowerUp, c0) prologue)
      with (Starting, colour_of Initializing).
    rewrite Hend. repeat constructor.
  - rewrite !end_point_app.
    change (end_point (PowerUp, c0) prologue)
      with (Starting, colour_of Initializing).
    rewrite Hend. reflexivity.
Qed.

Lemma loops_indicator (n : nat) :
  forall w : World,
    exists (w' : World) (tr : list Event),
      loops String_float env n w = Returned tt w' tr /\
      Forall (lit c0) (points (Waiting, colour_of Idle) tr) /\
      end_point (Waiting, colour_of Idle) tr = (Waiting, colour_of Idle).
Proof.
  induction n as [|n IH]; intros w.
  - exists w, []. split; [reflexivity|]. split; [|reflexivity].
    repeat constructor.
  - destruct (loop_cases String_float env w)
      as [[_ H]|[(cmd & _ & _ & H)|(cmd & _ & _ & H)]];
      match type of H with _ = Returned tt ?w1 _ =>
        destruct (IH w1) as (w2 & t2 & H2 & Hpts & Hend) end;
      exists w2; eexists;
      (split; [eapply loops_S; eassumption|]);
      (split;
       [ apply Forall_points_app; [repeat constructor | exact Hpts]
       | rewrite end_point_app; exact Hend ]).
Qed.

Lemma loops_observations (n : nat) :
  forall w : World,
    exists (w' : World) (tr : list Event),
      loops String_float env n w = Returned tt w' tr /\
      Forall seen_in_loop (observations (colour_of Idle) tr) /\
      shown_after (colour_of Idle) tr = colour_of Idle.
Proof.
  induction n as [|n IH]; intros w.
  - exists w, []. split; [reflexivity|]. split; [constructor | reflexivity].
  - destruct (loop_cases String_float env w)
      as [[_ H]|[(cmd & _ & _ & H)|(cmd & _ & _ & H)]];
      match type of H with _ = Returned tt ?w1 _ =>
        destruct (IH w1) as (w2 & t2 & H2 & Hobs & Hend) end;
      exists w2; eexists;
      (split; [eapply loops_S; eassumption|]);
      (split;
       [ apply Forall_observations_app;
         [repeat constructor | exact Hobs]
       | rewrite shown_after_app; exact Hend ]).
Qed.

End Indicator.

(** C5, as stated, fails: after setup and one "id?" request there is a
    point at which the LED shows the Sampling colour although the response
    has already been emitted. *)
Lemma sampling_outlasts_response :
  ~ Forall
      (fun pt : Point =>
         snd pt = colour_of Sampling -> fst pt = Received \/ fst pt = Handling)
      (points (PowerUp, 0)
         (events_of (firmware String_float_ref Bench.env 3 1 boot))).
Proof.
  intros H. rewrite Forall_forall in H.
  assert (Hin : In (Responded, colour_of Sampling)
                  (points (PowerUp, 0)
                     (events_of (firmware String_float_ref Bench.env 3 1 boot)))).
  { vm_compute. repeat (first [left; reflexivity | right]). }
  destruct (H _ Hin eq_refl) as [Hph|Hph]; discriminate Hph.
Qed.

(** C5, amended.  In a run of [setup] and any number of calls of [loop]
    the colour of the LED is at every point the one [colour_in] gives for
    the phase: what it was at power-up until the first flush of [setup],
    the Initializing colour from there to the last flush of [setup], the
    Idle colour between requests and from the receipt of a command to the
    flush that follows it, and the Sampling colour from that flush, through
    the emission of the response, to the flush that follows the response.
    So [loop] polls with the LED idle, and prints with the LED showing the
    Sampling colour before the line and still after it.  [setup] and the
    run end between requests, with the Idle colour. *)
Theorem indicator_follows_phases (String_float : float -> Z -> string)
    (env : Environment) (w : World) (N fuel n : nat) (c0 : Z) :
  found_after env w N ->
  (N < fuel)%nat ->
  exists (w1 w2 : World) (tr_setup tr_loops : list Event),
    setup env fuel w = Returned tt w1 tr_setup /\
    loops String_float env n w1 = Returned tt w2 tr_loops /\
    firmware String_float env fuel n w =
      Returned tt w2 (tr_setup ++ tr_loops) /\
    Forall (fun pt : Point => snd pt = colour_in c0 (fst pt))
      (points (PowerUp, c0) (tr_setup ++ tr_loops)) /\
    end_point (PowerUp, c0) tr_setup = (Waiting, colour_of Idle) /\
    end_point (PowerUp, c0) (tr_setup ++ tr_loops) = (Waiting, colour_of Idle) /\
    Forall
      (fun ob : Z * Event * Z =>
         match ob with
         | (before, EvScAvailable _, after) =>
             before = colour_of Idle /\ after = colour_of Idle
         | (before, EvSerialPrintln _, after) =>
             before = colour_of Sampling /\ after = colour_of Sampling
         | _ => True
         end)
      (observations (colour_of Idle) tr_loops).
Proof.
  intros Hfound Hlt.
  destruct (setup_indicator env c0 w N) as [Hpts1 Hend1].
  destruct (loops_indicator String_float env c0 n (set_up N w))
    as (w2 & tr & Hrun & Hpts2 & Hend2).
  destruct (loops_observations String_float env n (set_up N w))
    as (w2' & tr' & Hrun' & Hobs & _).
  rewrite Hrun in Hrun'. injection Hrun' as <- <-.
  pose proof (setup_found env w N fuel Hfound Hlt) as Hsetup.
  exists (set_up N w), w2, (setup_trace env w N), tr.
  split; [exact Hsetup|]. split; [exact Hrun|].
  split.
  { unfold firmware. eapply bind_Returned; eassumption. }
  split.
  { apply Forall_points_app; [exact Hpts1|]. now rewrite Hend1. }
  split; [exact Hend1|].
  split; [rewrite end_point_app, Hend1; exact Hend2 | exact Hobs].
Qed.

Lemma indicator_follows_phases_witness :
  found_after Bench.env boot 2 /\
  (2 < 3)%nat /\
  exists (w1 w2 : World) (tr_setup tr_loops : list Event),
    setup Bench.env 3 boot = Returned tt w1 tr_setup /\
    loops String_float_ref Bench.env 5 w1 = Returned tt w2 tr_loops /\
    firmware String_float_ref Bench.env 3 5 boot =
      Returned tt w2 (tr_setup ++ tr_loops) /\
    Forall (fun pt : Point => snd pt = colour_in 0 (fst pt))
      (points (PowerUp, 0) (tr_setup ++ tr_loops)) /\
    end_point (PowerUp, 0) tr_setup = (Waiting, colour_of Idle) /\
    end_point (PowerUp, 0) (tr_setup ++ tr_loops) = (Waiting, colour_of Idle) /\
    Forall
      (fun ob : Z * Event * Z =>
         match ob with
         | (before, EvScAvailable _, after) =>
             before = colour_of Idle /\ after = colour_of Idle
         | (before, EvSerialPrintln _, after) =>
             before = colour_of Sampling /\ after = colour_of Sampling
         | _ => True
         end)
      (observations (colour_of Idle) tr_loops).
Proof.
  assert (H : found_after Bench.env boot 2).
  { split; [|reflexivity]. intros [|[|k]] Hk; [reflexivity | reflexivity | lia]. }
  split; [exact H|]. split; [lia|].
  exact (indicator_follows_phases String_float_ref Bench.env boot 2 3 5 0
           H ltac:(lia)).
Defined.

(** ** The lines of a run of [loop] *)

Section Lines.

Variable String_float : float -> Z -> string.
Variable env : Environment.

Lemma line_at_sampled (w : World) (a : nat) :
  line_at String_float env (sampled env w) a = line_at String_float env w (S a).
Proof. unfold line_at. simpl. now rewrite !Nat.add_succ_r. Qed.

Lemma printed_acquisition (w : World) :
  printed (acquisition String_float env w) = [line_at String_float env w 0].
Proof. unfold line_at. now rewrite !Nat.add_0_r. Qed.

(** Every line printed by calls of [loop] is the identification or the
    line of a request, built from the answers of the environment that
    follow the state the calls start from. *)
Lemma loops_lines (n : nat) :
  forall w : World,
    exists (w' : World) (tr : list Event),
      loops String_float env n w = Returned tt w' tr /\
      Forall (fun line => line = identity \/ exists a, line = line_at String_float env w a)
        (printed tr).
Proof.
  induction n as [|n IH]; intros w.
  - exists w, []. split; [reflexivity | constructor].
  - destruct (loop_cases String_float env w)
      as [[_ H]|[(cmd & _ & _ & H)|(cmd & _ & _ & H)]];
      match type of H with _ = Returned tt ?w1 _ =>
        destruct (IH w1) as (w2 & t2 & H2 & Hlines) end;
      exists w2; eexists; (split; [eapply loops_S; eassumption|]);
      rewrite !printed_app.
    + exact Hlines.
    + constructor; [now left | exact Hlines].
    + rewrite printed_acquisition. simpl.
      constructor; [right; now exists 0%nat|].
      eapply Forall_impl; [|exact Hlines].
      intros line [Hl|[a Hl]]; [now left|].
      right. exists (S a). now rewrite <- line_at_sampled.
Qed.

Lemma timestamp_of_response (now : Z) (t_probe t_env h_env p_env : float) :
  0 <= now ->
  timestamp_of (response String_float now t_probe t_env h_env p_env) =
  Some now.
Proof.
  intros Hnow. unfold timestamp_of, response. rewrite !fields_tab.
  rewrite (fields_one (String_ulong now)) by apply String_ulong_no_tab.
  simpl hd. now apply parse_String_ulong.
Qed.

Lemma uint32_t_nonneg (z : Z) : 0 <= uint32_t z.
Proof. unfold uint32_t. apply Z.mod_pos_bound. lia. Qed.

(** The timestamps printed by calls of [loop] are the answers to its
    calls of [millis], in order. *)
Lemma loops_timestamps (n : nat) :
  forall w : World,
    exists (w' : World) (tr : list Event),
      loops String_float env n w = Returned tt w' tr /\
      (n_millis w <= n_millis w' <= n_millis w + n)%nat /\
      timestamps (printed tr) =
      map (fun i => uint32_t (uptime_ms env i))
        (seq (n_millis w) (n_millis w' - n_millis w)).
Proof.
  induction n as [|n IH]; intros w.
  - exists w, []. split; [reflexivity|]. split; [lia|].
    now rewrite Nat.sub_diag.
  - destruct (loop_cases String_float env w)
      as [[_ H]|[(cmd & _ & _ & H)|(cmd & _ & _ & H)]];
      match type of H with _ = Returned tt ?w1 _ =>
        destruct (IH w1) as (w2 & t2 & H2 & Hle & Hts) end;
      exists w2; eexists; (split; [eapply loops_S; eassumption|]);
      rewrite !printed_app.
    + split; [simpl in Hle; lia | exact Hts].
    + split; [simpl in Hle; lia|].
      simpl. exact Hts.
    + simpl in Hle. split; [lia|].
      replace (n_millis w2 - n_millis w)%nat
        with (S (n_millis w2 - S (n_millis w))) by lia.
      simpl printed. simpl timestamps.
      rewrite timestamp_of_response by apply uint32_t_nonneg.
      simpl. f_equal. exact Hts.
Qed.

End Lines.

Lemma Sorted_map_seq (f : nat -> Z) (len : nat) :
  forall start : nat,
    (forall i, (start <= i)%nat -> (S i < start + len)%nat -> f i <= f (S i)) ->
    Sorted Z.le (map f (seq start len)).
Proof.
  induction len as [|len IH]; intros start Hmono; simpl.
  - constructor.
  - constructor.
    + apply IH. intros i Hi Hlt. apply Hmono; lia.
    + destruct len as [|len]; simpl; constructor.
      apply Hmono; lia.
Qed.

(** C7.  Once [bme.begin] has succeeded, [setup] reads one temperature,
    one humidity and one pressure, the next the driver has, before it shows
    the idle colour; it stores none of them and prints nothing but the
    diagnostics of the failed attempts.  Every line that calls of [loop]
    print afterwards is the identification or a response built from
    readings of the driver that come after these three. *)
Theorem warm_up_readings_discarded (String_float : float -> Z -> string)
    (env : Environment) (w : World) (N fuel : nat) :
  found_after env w N ->
  (N < fuel)%nat ->
  exists (w1 : World) (pre : list Event),
    setup env fuel w =
      Returned tt w1
        (pre ++ [EvBmeBegin 118 true] ++
         [EvBmeReadTemperature (bme_temperature env (n_temperature w));
          EvBmeReadHumidity (bme_humidity env (n_humidity w));
          EvBmeReadPressure (bme_pressure env (n_pressure w))] ++
         [EvNeoSetPixelColor 0 (colour_of Idle); EvNeoShow (colour_of Idle)]) /\
    sensor_reads pre = [] /\
    printed pre = repeat diagnostic N /\
    readings w1 = readings w /\
    forall n : nat,
      exists (w2 : World) (tr : list Event),
        loops String_float env n w1 = Returned tt w2 tr /\
        Forall
          (fun line =>
             line = identity \/
             exists a : nat,
               line =
               response String_float
                 (uint32_t (uptime_ms env (n_millis w + a)))
                 (ds18_tempC env (n_ds18 w + a))
                 (bme_temperature env (n_temperature w + 1 + a))
                 (bme_humidity env (n_humidity w + 1 + a))
                 (bme_pressure env (n_pressure w + 1 + a)))
          (printed tr).
Proof.
  intros Hfound Hlt.
  exists (set_up N w), (prologue ++ retries N).
  split.
  { rewrite (setup_found env w N fuel Hfound Hlt).
    unfold setup_trace. now rewrite <- !app_assoc. }
  split; [rewrite sensor_reads_app, sensor_reads_retries; reflexivity|].
  split; [rewrite printed_app, printed_retries; reflexivity|].
  split; [reflexivity|].
  intros n.
  destruct (loops_lines String_float env n (set_up N w))
    as (w2 & tr & Hrun & Hlines).
  exists w2, tr. split; [exact Hrun|].
  eapply Forall_impl; [|exact Hlines].
  intros line [Hl|[a Hl]]; [now left|].
  right. exists a. rewrite Hl. simpl.
  now rewrite !Nat.add_1_r.
Qed.

Lemma warm_up_readings_discarded_witness :
  found_after Bench.env boot 2 /\
  (2 < 3)%nat /\
  exists (w1 : World) (pre : list Event),
    setup Bench.env 3 boot =
      Returned tt w1
        (pre ++ [EvBmeBegin 118 true] ++
         [EvBmeReadTemperature NAN;
          EvBmeReadHumidity (S754_zero false);
          EvBmeReadPressure Bench.f101325] ++
         [EvNeoSetPixelColor 0 (colour_of Idle); EvNeoShow (colour_of Idle)]) /\
    sensor_reads pre = [] /\
    printed pre = repeat diagnostic 2 /\
    readings w1 = readings boot /\
    forall n : nat,
      exists (w2 : World) (tr : list Event),
        loops String_float_ref Bench.env n w1 = Returned tt w2 tr /\
        Forall
          (fun line =>
             line = identity \/
             exists a : nat,
               line =
               response String_float_ref
                 (uint32_t (uptime_ms Bench.env (0 + a)))
                 (ds18_tempC Bench.env (0 + a))
                 (bme_temperature Bench.env (0 + 1 + a))
                 (bme_humidity Bench.env (0 + 1 + a))
                 (bme_pressure Bench.env (0 + 1 + a)))
          (printed tr).
Proof.
  assert (H : found_after Bench.env boot 2).
  { split; [|reflexivity]. intros [|[|k]] Hk; [reflexivity | reflexivity | lia]. }
  split; [exact H|]. split; [lia|].
  exact (warm_up_readings_discarded String_float_ref Bench.env boot 2 3
           H ltac:(lia)).
Defined.

(** C8, as stated, fails: with a clock that never decreases, two requests
    to read handled one after the other, the first 296 ms before the
    uptime reaches 2^32 ms and the second 704 ms after, print the
    timestamps 4294967000 and 704. *)
Lemma timestamps_fall_back_at_wrap :
  ~ ((forall i j : nat,
        (i <= j)%nat -> uptime_ms env_rollover i <= uptime_ms env_rollover j) ->
     Sorted Z.le
       (timestamps
          (printed (events_of (loops String_float_ref env_rollover 2 boot))))).
Proof.
  intros H.
  assert (Hmono : forall i j : nat,
            (i <= j)%nat ->
            uptime_ms env_rollover i <= uptime_ms env_rollover j).
  { intros i j Hij.
    change (uptime_ms env_rollover i) with (4294967000 + 1000 * Z.of_nat i).
    change (uptime_ms env_rollover j) with (4294967000 + 1000 * Z.of_nat j).
    lia. }
  specialize (H Hmono).
  assert (E : timestamps
                (printed
                   (events_of (loops String_float_ref env_rollover 2 boot))) =
              [4294967000; 704])
    by (vm_compute; reflexivity).
  rewrite E in H.
  inversion H as [|t rest _ Hhd]; subst.
  inversion Hhd as [|t' rest' Hle]; subst.
  lia.
Qed.

(** C8, amended.  If over the calls of [millis] made in a run of [loop]
    the clock (the milliseconds since boot) does not decrease and stays
    within one period of 2^32 ms, so that the 32-bit counter [now] is read
    from does not wrap during the run, then the timestamps of the
    responses of the run, read back from the first field of each line, are
    the values of these calls in order, and each is at least the one
    before. *)
Theorem timestamps_non_decreasing (String_float : float -> Z -> string)
    (env : Environment) (w : World) (n : nat) :
  (forall i j : nat,
     (n_millis w <= i)%nat -> (i <= j)%nat -> (j < n_millis w + n)%nat ->
     uptime_ms env i <= uptime_ms env j) ->
  (forall i : nat,
     (n_millis w <= i)%nat -> (i < n_millis w + n)%nat ->
     uptime_ms env i / 2 ^ 32 = uptime_ms env (n_millis w) / 2 ^ 32) ->
  exists (w' : World) (tr : list Event),
    loops String_float env n w = Returned tt w' tr /\
    timestamps (printed tr) =
      map (fun i => uint32_t (uptime_ms env i))
        (seq (n_millis w) (n_millis w' - n_millis w)) /\
    Sorted Z.le (timestamps (printed tr)).
Proof.
  intros Hmono Hperiod.
  destruct (loops_timestamps String_float env n w)
    as (w' & tr & Hrun & Hle & Hts).
  exists w', tr. split; [exact Hrun|]. split; [exact Hts|].
  rewrite Hts. apply Sorted_map_seq.
  intros i Hi Hlt. unfold uint32_t.
  rewrite (Z.mod_eq (uptime_ms env i)), (Z.mod_eq (uptime_ms env (S i)))
    by lia.
  rewrite (Hperiod i), (Hperiod (S i)) by lia.
  pose proof (Hmono i (S i)). lia.
Qed.

Lemma timestamps_non_decreasing_witness :
  (forall i j : nat,
     (n_millis (set_up 2 boot) <= i)%nat -> (i <= j)%nat ->
     (j < n_millis (set_up 2 boot) + 5)%nat ->
     uptime_ms Bench.env i <= uptime_ms Bench.env j) /\
  (forall i : nat,
     (n_millis (set_up 2 boot) <= i)%nat ->
     (i < n_millis (set_up 2 boot) + 5)%nat ->
     uptime_ms Bench.env i / 2 ^ 32 =
     uptime_ms Bench.env (n_millis (set_up 2 boot)) / 2 ^ 32) /\
  exists (w' : World) (tr : list Event),
    loops String_float_ref Bench.env 5 (set_up 2 boot) = Returned tt w' tr /\
    timestamps (printed tr) =
      map (fun i => uint32_t (uptime_ms Bench.env i))
        (seq (n_millis (set_up 2 boot)) (n_millis w' - n_millis (set_up 2 boot))) /\
    Sorted Z.le (timestamps (printed tr)).
Proof.
  assert (Hmono : forall i j : nat,
             (n_millis (set_up 2 boot) <= i)%nat -> (i <= j)%nat ->
             (j < n_millis (set_up 2 boot) + 5)%nat ->
             uptime_ms Bench.env i <= uptime_ms Bench.env j).
  { intros i j _ Hij _.
    change (uptime_ms Bench.env i) with (123456 + 1000 * Z.of_nat i).
    change (uptime_ms Bench.env j) with (123456 + 1000 * Z.of_nat j).
    lia. }
  assert (Hperiod : forall i : nat,
             (n_millis (set_up 2 boot) <= i)%nat ->
             (i < n_millis (set_up 2 boot) + 5)%nat ->
             uptime_ms Bench.env i / 2 ^ 32 =
             uptime_ms Bench.env (n_millis (set_up 2 boot)) / 2 ^ 32).
  { intros i _ Hi.
    change (n_millis (set_up 2 boot) + 5)%nat with 5%nat in Hi.
    change (uptime_ms Bench.env (n_millis (set_up 2 boot))) with 123456.
    change (uptime_ms Bench.env i) with (123456 + 1000 * Z.of_nat i).
    change (2 ^ 32) with 4294967296.
    rewrite !Z.div_small by lia. reflexivity. }
  split; [exact Hmono|]. split; [exact Hperiod|].
  exact (timestamps_non_decreasing String_float_ref Bench.env (set_up 2 boot) 5
           Hmono Hperiod).
Defined.

(** * Further properties of [setup] and [loop] *)

(** ** Observers and concatenation, continued *)

Lemma polls_app (a b : list Event) : polls (a ++ b) = polls a ++ polls b.
Proof.
  induction a as [|e a IH]; [reflexivity|].
  destruct e; simpl; rewrite IH; reflexivity.
Qed.

Lemma commands_app (a b : list Event) :
  commands (a ++ b) = commands a ++ commands b.
Proof.
  induction a as [|e a IH]; [reflexivity|].
  destruct e; simpl; rewrite IH; reflexivity.
Qed.

Lemma read_requests_app (a b : list Event) :
  read_requests (a ++ b) = read_requests a ++ read_requests b.
Proof. unfold read_requests. now rewrite commands_app, filter_app. Qed.

Lemma is_id_true (cmd : string) : c_str cmd = "id?"%string -> is_id cmd = true.
Proof. apply strcmp_id_true. Qed.

Lemma is_id_false (cmd : string) : c_str cmd <> "id?"%string -> is_id cmd = false.
Proof. apply strcmp_id_false. Qed.

Lemma begun_before_use_app (b : Begun) (a c : list Event) :
  begun_before_use b (a ++ c) =
  begun_before_use b a && begun_before_use (begun_after b a) c.
Proof.
  revert b. induction a as [|e a IH]; intros b; simpl.
  - reflexivity.
  - rewrite IH. now rewrite andb_assoc.
Qed.

Lemma begun_after_app (b : Begun) (a c : list Event) :
  begun_after b (a ++ c) = begun_after (begun_after b a) c.
Proof. apply fold_left_app. Qed.

Lemma all_begun_ok (tr : list Event) :
  begun_before_use all_begun tr = true /\ begun_after all_begun tr = all_begun.
Proof.
  induction tr as [|e tr [IH1 IH2]]; [split; reflexivity|].
  assert (Hstep : begin_step all_begun e = all_begun)
    by (destruct e as [| | | | | |? [|]| | | | | | | | |]; reflexivity).
  assert (Huse : use_ok all_begun e = true) by (destruct e; reflexivity).
  unfold begun_after in *. simpl. rewrite Hstep, Huse. now split.
Qed.

Lemma retries_begun (b : Begun) (N : nat) :
  Serial_begun b = true ->
  begun_before_use b (retries N) = true /\ begun_after b (retries N) = b.
Proof.
  intros H. induction N as [|N [IH1 IH2]]; [split; reflexivity|].
  unfold begun_after in *. simpl. rewrite H. now split.
Qed.

(** ** Runs of [loop]: one answer and one flash per command *)

Lemma id_trace_read_requests (cmd : string) :
  c_str cmd = "id?"%string ->
  read_requests
    ([EvScAvailable true; EvScGetCmd cmd] ++ flash ++
     [EvSerialPrintln identity] ++ go_idle) = [].
Proof.
  intros Hid. unfold read_requests. simpl. now rewrite (is_id_true cmd Hid).
Qed.

Lemma read_trace_read_requests (String_float : float -> Z -> string)
    (env : Environment) (w : World) (cmd : string) :
  c_str cmd <> "id?"%string ->
  read_requests
    ([EvScAvailable true; EvScGetCmd cmd] ++ flash ++
     acquisition String_float env w ++ go_idle) = [cmd].
Proof.
  intros Hid. unfold read_requests. simpl. now rewrite (is_id_false cmd Hid).
Qed.

(** X1.  In [n] calls of [loop] the command channel is polled exactly [n]
    times, a command is taken exactly when a poll finds one, exactly one
    line is printed per command taken, and [delay] is never called: there
    is no unsolicited line, no unanswered command and no blocking wait. *)
Theorem loops_answer_each_command (String_float : float -> Z -> string)
    (env : Environment) (n : nat) :
  forall w : World,
    exists (w' : World) (tr : list Event),
      loops String_float env n w = Returned tt w' tr /\
      List.length (polls tr) = n /\
      List.length (commands tr) = List.length (filter (fun b : bool => b) (polls tr)) /\
      List.length (printed tr) = List.length (commands tr) /\
      delays tr = [].
Proof.
  induction n as [|n IH]; intros w.
  - exists w, []. repeat split.
  - destruct (loop_cases String_float env w)
      as [[_ H]|[(cmd & _ & _ & H)|(cmd & _ & _ & H)]];
      match type of H with _ = Returned tt ?w1 _ =>
        destruct (IH w1) as (w2 & t2 & H2 & Hp & Hc & Hl & Hd) end;
      exists w2; eexists; (split; [eapply loops_S; eassumption|]);
      rewrite polls_app, commands_app, printed_app, delays_app, filter_app,
        !length_app, Hd, Hp, Hl, Hc;
      repeat split.
Qed.

(** X2.  In a run of [loop] the sensors are used only on demand: a command
    that passes the test of line 92 causes no sensor access, every other
    command causes one [requestTemperatures] and the four reads, so the
    reads number four times the requests to read; [millis], the probe and
    the three quantities of the BME280 are each asked once per such
    request, and [bme.begin] is never called again. *)
Theorem loops_sample_on_demand (String_float : float -> Z -> string)
    (env : Environment) (n : nat) :
  forall w : World,
    exists (w' : World) (tr : list Event),
      loops String_float env n w = Returned tt w' tr /\
      List.length (sensor_reads tr) = (4 * List.length (read_requests tr))%nat /\
      List.length (sensor_accesses tr) = (5 * List.length (read_requests tr))%nat /\
      n_millis w' = (n_millis w + List.length (read_requests tr))%nat /\
      n_ds18 w' = (n_ds18 w + List.length (read_requests tr))%nat /\
      n_temperature w' = (n_temperature w + List.length (read_requests tr))%nat /\
      n_humidity w' = (n_humidity w + List.length (read_requests tr))%nat /\
      n_pressure w' = (n_pressure w + List.length (read_requests tr))%nat /\
      n_begin w' = n_begin w.
Proof.
  induction n as [|n IH]; intros w.
  - exists w, []. simpl. repeat split; lia.
  - destruct (loop_cases String_float env w)
      as [[_ H]|[(cmd & _ & Hid & H)|(cmd & _ & Hid & H)]];
      match type of H with _ = Returned tt ?w1 _ =>
        destruct (IH w1)
          as (w2 & t2 & H2 & Hr & Ha & Hm & Hd & Ht & Hh & Hp & Hb) end;
      exists w2; eexists; (split; [eapply loops_S; eassumption|]);
      rewrite sensor_reads_app, sensor_accesses_app, read_requests_app,
        !length_app, Hr, Ha, Hm, Hd, Ht, Hh, Hp, Hb.
    + simpl. repeat split; lia.
    + rewrite (id_trace_read_requests cmd Hid). simpl. repeat split; lia.
    + rewrite (read_trace_read_requests String_float env w cmd Hid).
      simpl. repeat split; lia.
Qed.

(** X3.  Every command taken, "id?" included, makes the LED flash once:
    the flushes of a run of [loop] are, command by command, the Sampling
    colour and then the Idle colour, and a poll that finds no command
    flushes nothing. *)
Theorem loops_flash_each_command (String_float : float -> Z -> string)
    (env : Environment) (n : nat) :
  forall w : World,
    exists (w' : World) (tr : list Event),
      loops String_float env n w = Returned tt w' tr /\
      shown_colours tr =
      flat_map (fun _ : string => [colour_of Sampling; colour_of Idle])
        (commands tr).
Proof.
  induction n as [|n IH]; intros w.
  - exists w, []. split; reflexivity.
  - destruct (loop_cases String_float env w)
      as [[_ H]|[(cmd & _ & _ & H)|(cmd & _ & _ & H)]];
      match type of H with _ = Returned tt ?w1 _ =>
        destruct (IH w1) as (w2 & t2 & H2 & Hs) end;
      exists w2; eexists; (split; [eapply loops_S; eassumption|]);
      rewrite shown_colours_app, commands_app, flat_map_app, Hs;
      reflexivity.
Qed.

(** ** Runs of [loop]: the commands taken are the commands that arrived *)

Lemma received_nothing_held (env : Environment) (w : World) :
  sc_strIn w = None -> received env w = serial_cmd env (n_available w).
Proof. intros H. unfold received. rewrite H. now destruct (serial_cmd env _). Qed.

(** X4.  Starting with no command held, [n] calls of [loop] take exactly
    the commands that arrive at their [n] polls, each once and in the order
    of arrival, and leave none held: no command is dropped and none is
    handled twice. *)
Theorem loops_take_arrivals_in_order (String_float : float -> Z -> string)
    (env : Environment) (n : nat) :
  forall w : World,
    sc_strIn w = None ->
    exists (w' : World) (tr : list Event),
      loops String_float env n w = Returned tt w' tr /\
      commands tr = arrivals env (n_available w) n /\
      n_available w' = (n_available w + n)%nat /\
      sc_strIn w' = None.
Proof.
  induction n as [|n IH]; intros w Hnone.
  - exists w, []. repeat split; [lia | assumption].
  - pose proof (received_nothing_held env w Hnone) as Hrec.
    destruct (loop_cases String_float env w)
      as [[Hr H]|[(cmd & Hr & _ & H)|(cmd & Hr & _ & H)]];
      rewrite Hrec in Hr;
      match type of H with _ = Returned tt ?w1 _ =>
        destruct (IH w1 eq_refl) as (w2 & t2 & H2 & Hc & Ha & Hn) end;
      exists w2; eexists; (split; [eapply loops_S; eassumption|]);
      rewrite commands_app, Hc, Ha; unfold arrivals; simpl;
      rewrite Hr; repeat split; solve [reflexivity | lia | assumption].
Qed.

Lemma loops_take_arrivals_in_order_witness :
  sc_strIn (set_up 2 boot) = None /\
  exists (w' : World) (tr : list Event),
    loops String_float_ref Bench.env 5 (set_up 2 boot) = Returned tt w' tr /\
    commands tr = ["id?"; ""; "ID?"; "x"]%string /\
    n_available w' = 5%nat /\
    sc_strIn w' = None.
Proof.
  split; [reflexivity|].
  exact (loops_take_arrivals_in_order String_float_ref Bench.env 5
           (set_up 2 boot) eq_refl).
Defined.

(** ** The lines of [loop] and what a reader can tell from them *)

Lemma has_tab_response (String_float : float -> Z -> string)
    (now : Z) (t_probe t_env h_env p_env : float) :
  has_tab (response String_float now t_probe t_env h_env p_env) = true.
Proof.
  unfold response, plus_str, plus_char.
  rewrite !has_tab_app. simpl. rewrite !orb_true_r. reflexivity.
Qed.

(** X5.  A reader of the serial channel can tell the two kinds of lines of
    [loop] apart by the tab: every line a run of [loop] prints either has
    no tab and is the identification, or has a tab and is the response of
    one of the requests to read, whatever the formatter of floats prints.
    The diagnostic of [setup] has no tab either. *)
Theorem loops_lines_told_apart_by_tab (String_float : float -> Z -> string)
    (env : Environment) (n : nat) (w : World) :
  has_tab diagnostic = false /\
  exists (w' : World) (tr : list Event),
    loops String_float env n w = Returned tt w' tr /\
    Forall
      (fun line =>
         (has_tab line = false /\ line = identity) \/
         (has_tab line = true /\
          exists a : nat,
            line =
            response String_float
              (uint32_t (uptime_ms env (n_millis w + a)))
              (ds18_tempC env (n_ds18 w + a))
              (bme_temperature env (n_temperature w + a))
              (bme_humidity env (n_humidity w + a))
              (bme_pressure env (n_pressure w + a))))
      (printed tr).
Proof.
  split; [reflexivity|].
  destruct (loops_lines String_float env n w) as (w' & tr & Hrun & Hlines).
  exists w', tr. split; [exact Hrun|].
  eapply Forall_impl; [|exact Hlines].
  intros line [->|[a ->]].
  - left. split; reflexivity.
  - right. split; [apply has_tab_response|]. now exists a.
Qed.

(** X6.  The timestamp of a response can be read back from the line
    without any assumption on the formatter of floats: the first field of
    the line of a request to read is the decimal form of the value [millis]
    returned, a number below 2^32. *)
Theorem response_timestamp_reads_back (String_float : float -> Z -> string)
    (env : Environment) (w : World) (cmd : string) :
  received env w = Some cmd ->
  c_str cmd <> "id?"%string ->
  exists (w' : World) (tr : list Event) (line : string),
    loop String_float env w = Returned tt w' tr /\
    printed tr = [line] /\
    timestamp_of line = Some (uint32_t (uptime_ms env (n_millis w))) /\
    0 <= uint32_t (uptime_ms env (n_millis w)) < 2 ^ 32.
Proof.
  intros Hcmd Hid. eexists. eexists. eexists.
  split; [apply (loop_read String_float env w cmd Hcmd Hid)|].
  split; [reflexivity|].
  split; [apply timestamp_of_response, uint32_t_nonneg|].
  unfold uint32_t. apply Z.mod_pos_bound. lia.
Qed.

Lemma response_timestamp_reads_back_witness :
  received Bench.env Bench.ready = Some ""%string /\
  c_str "" <> "id?"%string /\
  exists (w' : World) (tr : list Event) (line : string),
    loop String_float_tab Bench.env Bench.ready = Returned tt w' tr /\
    printed tr = [line] /\
    timestamp_of line = Some 123456 /\
    List.length (fields line) = 9%nat.
Proof.
  split; [reflexivity|]. split; [discriminate|].
  destruct (response_timestamp_reads_back String_float_tab Bench.env
              Bench.ready "" eq_refl ltac:(discriminate))
    as (w' & tr & line & Hrun & Hprinted & Hts & _).
  exists w', tr, line.
  split; [exact Hrun|]. split; [exact Hprinted|]. split; [exact Hts|].
  rewrite (loop_read String_float_tab Bench.env Bench.ready ""
             eq_refl ltac:(discriminate)) in Hrun.
  injection Hrun as _ <-. injection Hprinted as <-. reflexivity.
Defined.

(** ** The globals after a run of [loop] *)

Lemma loops_snapshot (String_float : float -> Z -> string)
    (env : Environment) (n : nat) :
  forall w : World,
    exists (w' : World) (tr : list Event),
      loops String_float env n w = Returned tt w' tr /\
      ((read_requests tr = [] /\ readings w' = readings w /\
        n_ds18 w' = n_ds18 w /\ n_temperature w' = n_temperature w /\
        n_humidity w' = n_humidity w /\ n_pressure w' = n_pressure w) \/
       (read_requests tr <> [] /\
        readings w' =
          (ds18_tempC env (pred (n_ds18 w')),
           bme_temperature env (pred (n_temperature w')),
           bme_humidity env (pred (n_humidity w')),
           bme_pressure env (pred (n_pressure w'))))).
Proof.
  induction n as [|n IH]; intros w.
  - exists w, []. split; [reflexivity|]. left. repeat split.
  - destruct (loop_cases String_float env w)
      as [[_ H]|[(cmd & _ & Hid & H)|(cmd & _ & Hid & H)]];
      match type of H with _ = Returned tt ?w1 _ =>
        destruct (IH w1) as (w2 & t2 & H2 & Hsnap) end;
      exists w2; eexists; (split; [eapply loops_S; eassumption|]);
      rewrite read_requests_app.
    + exact Hsnap.
    + rewrite (id_trace_read_requests cmd Hid). exact Hsnap.
    + rewrite (read_trace_read_requests String_float env w cmd Hid).
      right. split; [discriminate|].
      destruct Hsnap as [(_ & Hr & Hd & Ht & Hh & Hp)|[_ Hr]]; [|exact Hr].
      rewrite Hr, Hd, Ht, Hh, Hp. reflexivity.
Qed.

(** X7.  After any run of [loop] the four globals hold one whole
    acquisition: if the run handled no request to read they are what they
    were before it, and otherwise they are the four values the drivers
    returned last, all four from the same, most recent request. *)
Theorem readings_hold_last_snapshot (String_float : float -> Z -> string)
    (env : Environment) (n : nat) (w : World) :
  exists (w' : World) (tr : list Event),
    loops String_float env n w = Returned tt w' tr /\
    ((read_requests tr = [] /\ readings w' = readings w) \/
     (read_requests tr <> [] /\
      readings w' =
        (ds18_tempC env (pred (n_ds18 w')),
         bme_temperature env (pred (n_temperature w')),
         bme_humidity env (pred (n_humidity w')),
         bme_pressure env (pred (n_pressure w'))))).
Proof.
  destruct (loops_snapshot String_float env n w) as (w' & tr & Hrun & Hsnap).
  exists w', tr. split; [exact Hrun|].
  destruct Hsnap as [(Hnone & Hr & _)|Hlast]; [left | right]; auto.
Qed.

(** ** A sensor that is never found *)

Lemma polls_retries (N : nat) : polls (retries N) = [].
Proof. induction N as [|N IH]; simpl; congruence. Qed.

(** X8.  If [bme.begin] never succeeds the firmware never leaves the
    [while] of [setup], whatever the budget: it prints one diagnostic per
    attempt, the LED stays at the Initializing colour, no sensor is read,
    and [loop] is never entered, so no command is ever polled or
    answered. *)
Theorem firmware_blocked_while_sensor_missing
    (String_float : float -> Z -> string) (env : Environment) (w : World) :
  (forall k : nat, bme_begin_ok env (n_begin w + k) = false) ->
  forall fuel n : nat,
    exists tr : list Event,
      firmware String_float env fuel n w = Spinning tr /\
      printed tr = repeat diagnostic fuel /\
      delays tr = repeat 1000 fuel /\
      shown_colours tr = [colour_of Initializing] /\
      sensor_reads tr = [] /\
      polls tr = [].
Proof.
  intros Hmiss fuel n. exists (prologue ++ retries fuel).
  split.
  { unfold firmware, bind.
    now rewrite (setup_missing env w fuel (fun k _ => Hmiss k)). }
  rewrite printed_app, delays_app, shown_colours_app, sensor_reads_app,
    polls_app, printed_retries, delays_retries, shown_colours_retries,
    sensor_reads_retries, polls_retries.
  repeat split.
Qed.

Lemma firmware_blocked_while_sensor_missing_witness :
  (forall k : nat,
     bme_begin_ok Bench.env_absent (n_begin boot + k) = false) /\
  exists tr : list Event,
    firmware String_float_ref Bench.env_absent 7 3 boot = Spinning tr /\
    printed tr = repeat diagnostic 7 /\
    delays tr = repeat 1000 7 /\
    shown_colours tr = [colour_of Initializing] /\
    sensor_reads tr = [] /\
    polls tr = [].
Proof.
  split; [intros k; reflexivity|].
  exact (firmware_blocked_while_sensor_missing String_float_ref
           Bench.env_absent boot (fun k => eq_refl) 7%nat 3%nat).
Defined.

(** ** Objects are begun before they are used *)

Lemma setup_trace_begun (env : Environment) (w : World) (N : nat) :
  begun_before_use none_begun (setup_trace env w N) = true /\
  begun_after none_begun (setup_trace env w N) = all_begun.
Proof.
  unfold setup_trace.
  destruct (retries_begun (begun_after none_begun prologue) N eq_refl)
    as [Huse Hafter].
  split.
  - rewrite !begun_before_use_app, Huse, Hafter. reflexivity.
  - rewrite !begun_after_app, Hafter. reflexivity.
Qed.

(** X9.  In every run of the firmware, whether [setup] returns or is still
    trying to find the sensor, each object is begun before its first use:
    the LED is written only after [neo.begin], lines are printed and
    commands polled only after [Serial.begin], the probe is used only after
    [ds18.begin], and the BME280 is read only after a [bme.begin] that
    returned true. *)
Theorem objects_begun_before_use (String_float : float -> Z -> string)
    (env : Environment) (fuel n : nat) (w : World) :
  begun_before_use none_begun
    (events_of (firmware String_float env fuel n w)) = true.
Proof.
  unfold firmware, bind.
  destruct (setup_outcome env fuel w) as [(N & _ & _ & Hrun)|Hrun];
    rewrite Hrun.
  - destruct (loops_return String_float env n (set_up N w))
      as (w' & tr & Hloops).
    rewrite Hloops. cbv beta iota delta [prepend events_of].
    destruct (setup_trace_begun env w N) as [Huse Hafter].
    rewrite begun_before_use_app, Huse, Hafter.
    apply all_begun_ok.
  - cbv beta iota delta [events_of].
    destruct (retries_begun (begun_after none_begun prologue) fuel eq_refl)
      as [Huse _].
    rewrite begun_before_use_app, Huse. reflexivity.
Qed.

(** ** The timestamp is a 32-bit counter *)

(** X10.  The timestamp is the uptime modulo 2^32 ([now] is a [uint32_t]):
    of two requests to read handled one after the other, the first before
    the uptime reaches 2^32 ms and the second after (and less than 2^32 ms
    later), the second response carries the smaller timestamp. *)
Theorem timestamp_rolls_over (String_float : float -> Z -> string)
    (env : Environment) (w : World) (c1 c2 : string) :
  received env w = Some c1 ->
  c_str c1 <> "id?"%string ->
  serial_cmd env (S (n_available w)) = Some c2 ->
  c_str c2 <> "id?"%string ->
  0 <= uptime_ms env (n_millis w) < 2 ^ 32 ->
  2 ^ 32 <= uptime_ms env (S (n_millis w)) < 2 ^ 32 + uptime_ms env (n_millis w) ->
  exists (w' : World) (tr : list Event),
    loops String_float env 2 w = Returned tt w' tr /\
    timestamps (printed tr) =
      [uptime_ms env (n_millis w); uptime_ms env (S (n_millis w)) - 2 ^ 32] /\
    uptime_ms env (S (n_millis w)) - 2 ^ 32 < uptime_ms env (n_millis w).
Proof.
  intros Hc1 Hid1 Hc2 Hid2 Ht1 Ht2.
  assert (Hrec2 : received env (sampled env w) = Some c2).
  { unfold received. simpl. now rewrite Hc2. }
  assert (E1 : uint32_t (uptime_ms env (n_millis w)) = uptime_ms env (n_millis w)).
  { unfold uint32_t. apply Z.mod_small. exact Ht1. }
  assert (E2 : uint32_t (uptime_ms env (S (n_millis w))) =
               uptime_ms env (S (n_millis w)) - 2 ^ 32).
  { unfold uint32_t. symmetry.
    apply (Z.mod_unique _ _ 1); [left|]; lia. }
  eexists. eexists. split.
  - eapply loops_S; [apply (loop_read String_float env w c1 Hc1 Hid1)|].
    eapply loops_S;
      [apply (loop_read String_float env (sampled env w) c2 Hrec2 Hid2)|].
    reflexivity.
  - split; [|lia].
    rewrite !printed_app.
    change (printed [EvScAvailable true; EvScGetCmd c1]) with (@nil string).
    change (printed [EvScAvailable true; EvScGetCmd c2]) with (@nil string).
    change (printed flash) with (@nil string).
    change (printed go_idle) with (@nil string).
    change (printed []) with (@nil string).
    rewrite !app_nil_r. cbn [app].
    cbv beta iota delta [acquisition printed app timestamps].
    rewrite !timestamp_of_response by apply uint32_t_nonneg.
    change (n_millis (sampled env w)) with (S (n_millis w)).
    now rewrite E1, E2.
Qed.

Lemma timestamp_rolls_over_witness :
  received env_rollover boot = Some ""%string /\
  c_str "" <> "id?"%string /\
  serial_cmd env_rollover (S (n_available boot)) = Some ""%string /\
  0 <= uptime_ms env_rollover (n_millis boot) < 2 ^ 32 /\
  2 ^ 32 <= uptime_ms env_rollover (S (n_millis boot))
         < 2 ^ 32 + uptime_ms env_rollover (n_millis boot) /\
  exists (w' : World) (tr : list Event),
    loops String_float_ref env_rollover 2 boot = Returned tt w' tr /\
    timestamps (printed tr) = [4294967000; 704] /\
    704 < 4294967000.
Proof.
  assert (H1 : 0 <= uptime_ms env_rollover (n_millis boot) < 2 ^ 32)
    by (vm_compute; split; [discriminate | reflexivity]).
  assert (H2 : 2 ^ 32 <= uptime_ms env_rollover (S (n_millis boot))
               < 2 ^ 32 + uptime_ms env_rollover (n_millis boot))
    by (vm_compute; split; [discriminate | reflexivity]).
  split; [reflexivity|]. split; [discriminate|]. split; [reflexivity|].
  split; [exact H1|]. split; [exact H2|].
  exact (timestamp_rolls_over String_float_ref env_rollover boot "" ""
           eq_refl ltac:(discriminate) eq_refl ltac:(discriminate) H1 H2).
Defined.
